(** * Network checker widgets: EVM, Solana and Substrate

    A shallow embedding of the three React components
    [NetworkChecker] (EVM), [SolanaNetworkChecker] and
    [SubstrateNetworkChecker], and the properties of their search filter,
    their event handlers, their loading effect and their render function.

    Conventions of the model.
    - A JavaScript string is a [string]: a sequence of code units, here the
      code units below 256 (Latin-1).  [toLowerCase], [includes],
      [startsWith] and the default ordering of [Array.prototype.sort] are
      defined on these sequences as ECMAScript defines them on that range.
    - A [number] that holds a chain id is an integer [Z]; its [toString] is
      the decimal numeral.
    - The five [useState] cells of a component are the fields of [State];
      a handler is a function on [State].
    - The three components repeat one interaction pattern; what differs
      (record type, filter callback, display name, document and key, details
      panel) is selected by a [Component]. *)

From Stdlib Require Import Ascii DecimalString ZArith.
From stdpp Require Import gmap strings list sorting.

(** ** JavaScript primitives used by the components *)

Module JS.

(** [String.prototype.toLowerCase] on one code unit below 256: the
    letters A-Z and the Latin-1 capitals (192-222 except the
    multiplication sign 215) move up by 32, every other unit is kept.
    Outside this range lowercasing is not unit by unit (a Greek capital
    sigma is lowered according to its position in the word); such strings
    are outside the model. *)
Definition lowerUnit (c : ascii) : ascii :=
  let n := nat_of_ascii c in
  if ((65 <=? n) && (n <=? 90)) ||
     ((192 <=? n) && (n <=? 222) && negb (n =? 215))
  then ascii_of_nat (n + 32)
  else c.

Fixpoint toLowerCase (s : string) : string :=
  match s with
  | EmptyString => EmptyString
  | String c rest => String (lowerUnit c) (toLowerCase rest)
  end.

(** [s.startsWith(p)] *)
Fixpoint startsWith (s p : string) {struct p} : bool :=
  match p, s with
  | EmptyString, _ => true
  | String _ _, EmptyString => false
  | String a p', String b s' => if Ascii.eqb a b then startsWith s' p' else false
  end.

(** [s.includes(sub)]: [sub] starts at some position of [s]. *)
Fixpoint includes (s sub : string) : bool :=
  startsWith s sub ||
  match s with
  | EmptyString => false
  | String _ s' => includes s' sub
  end.

(** [n.toString()] for an integer [n] (below 10^21 in magnitude, where
    all digits are printed). *)
Definition numberToString (n : Z) : string :=
  NilZero.string_of_int (Z.to_int n).

(** Truthiness of a string: only the empty string is falsy. *)
Definition truthy (s : string) : bool :=
  match s with
  | EmptyString => false
  | String _ _ => true
  end.

(** Truthiness of [string | null]. *)
Definition truthyOpt (o : option string) : bool :=
  match o with
  | None => false
  | Some s => truthy s
  end.

(** [Set.prototype.add] on a [Set<string>] kept in insertion order: an
    element that is already present keeps its place, a new one goes last. *)
Fixpoint setAdd (x : string) (elems : list string) : list string :=
  match elems with
  | [] => [x]
  | y :: rest => if String.eqb x y then y :: rest else y :: setAdd x rest
  end.

(** [Array.prototype.sort()] without a comparator on an array of strings:
    ascending by code units. *)
Definition sortStrings (l : list string) : list string :=
  merge_sort String.le l.

(** The order of [<] on strings. *)
Definition strLt (a b : string) : Prop := String.ltb a b = true.

End JS.

(** The coverage bound of a range: [number | string | null]. *)
Inductive Bound :=
| BoundNumber (n : Z)
| BoundString (s : string)
| BoundNull.

(** ** EVM: [NetworkChecker] *)

Module Evm.

(** An element of [provider.data]:
    [string | { name: string; ranges: ... }]. *)
Inductive DataItem :=
| ItemString (s : string)
| ItemObject (name : string) (ranges : list (Bound * Bound)).

Record Provider := {
  data : list DataItem;
  dataSourceUrl : string;
  provider : string;
  release : string;
  supportTier : Z
}.

Record NetworkData := {
  chainId : Z;
  chainName : string;
  id : string;
  isTestnet : option bool;
  logoUrl : string;
  network : string;
  providers : list Provider
}.

(** The callback given to [networks.filter]. *)
Definition networkFilter (searchTerm : string) (network : NetworkData) : bool :=
  let searchLower := JS.toLowerCase searchTerm in
  JS.includes (JS.toLowerCase (chainName network)) searchLower ||
  JS.startsWith (JS.numberToString (chainId network)) searchTerm ||
  JS.includes (JS.toLowerCase (id network)) searchLower.

(** The name an item contributes to the set. *)
Definition itemName (item : DataItem) : string :=
  match item with
  | ItemString s => s
  | ItemObject name _ => name
  end.

(** The two nested [forEach] loops, threading the set [allData]. *)
Definition collectProvider (allData : list string) (p : Provider) : list string :=
  fold_left (fun acc item =>
               match item with
               | ItemString s => JS.setAdd s acc
               | ItemObject name _ => JS.setAdd name acc
               end) (data p) allData.

Definition collect (network : NetworkData) : list string :=
  fold_left collectProvider (providers network) [].

Definition getAvailableData (network : NetworkData) : list string :=
  JS.sortStrings (collect network).

(** What the details panel shows for the selected network. *)
Record Details := {
  logo : option string;
  title : string;
  chainIdLine : Z;
  dataBadges : list string
}.

Definition detailsPanel (selectedNetwork : NetworkData) : Details :=
  {| logo := if JS.truthy (logoUrl selectedNetwork)
             then Some (logoUrl selectedNetwork) else None;
     title := chainName selectedNetwork;
     chainIdLine := chainId selectedNetwork;
     dataBadges := getAvailableData selectedNetwork |}.

End Evm.

(** ** Solana: [SolanaNetworkChecker] *)

Module Solana.

Record DataItem := {
  name : string;
  ranges : list (option string * option string)
}.

Record Provider := {
  data : list DataItem;
  dataSourceUrl : string;
  provider : string;
  release : string;
  supportTier : Z
}.

Record NetworkData := {
  id : string;
  chainName : string;
  isTestnet : bool;
  network : string;
  providers : list Provider
}.

Definition networkFilter (searchTerm : string) (n : NetworkData) : bool :=
  let searchLower := JS.toLowerCase searchTerm in
  JS.includes (JS.toLowerCase (chainName n)) searchLower ||
  JS.includes (JS.toLowerCase (id n)) searchLower ||
  JS.includes (JS.toLowerCase (network n)) searchLower.

Definition collectProvider (allData : list string) (p : Provider) : list string :=
  fold_left (fun acc item => JS.setAdd (name item) acc) (data p) allData.

Definition collect (n : NetworkData) : list string :=
  fold_left collectProvider (providers n) [].

Definition getAvailableData (n : NetworkData) : list string :=
  JS.sortStrings (collect n).

Record Details := {
  title : string;
  networkLine : string;
  testnetTag : bool;
  dataBadges : list string
}.

Definition detailsPanel (selectedNetwork : NetworkData) : Details :=
  {| title := chainName selectedNetwork;
     networkLine := network selectedNetwork;
     testnetTag := isTestnet selectedNetwork;
     dataBadges := getAvailableData selectedNetwork |}.

End Solana.

(** ** Substrate: [SubstrateNetworkChecker] *)

Module Substrate.

Record NetworkData := {
  name : string;
  displayName : string;
  tokens : list string;
  website : string;
  description : string;
  relayChain : option string;
  parachainId : option string
}.

(** [x && e]: [e] is evaluated only when [x] is a non-empty string. *)
Definition guarded (x : option string) (e : string -> bool) : bool :=
  match x with
  | Some s => if JS.truthy s then e s else false
  | None => false
  end.

Definition networkFilter (searchTerm : string) (network : NetworkData) : bool :=
  let searchLower := JS.toLowerCase searchTerm in
  JS.includes (JS.toLowerCase (displayName network)) searchLower ||
  JS.includes (JS.toLowerCase (name network)) searchLower ||
  guarded (parachainId network) (fun p => JS.startsWith p searchTerm) ||
  guarded (relayChain network) (fun r => JS.includes (JS.toLowerCase r) searchLower).

Record Details := {
  title : string;
  relayLine : option string;
  parachainLine : option string;
  lakeLine : string
}.

Definition detailsPanel (selectedNetwork : NetworkData) : Details :=
  {| title := displayName selectedNetwork;
     relayLine := if JS.truthyOpt (relayChain selectedNetwork)
                  then relayChain selectedNetwork else None;
     parachainLine := if JS.truthyOpt (parachainId selectedNetwork)
                      then parachainId selectedNetwork else None;
     lakeLine := displayName selectedNetwork |}.

End Substrate.

(** ** The interaction pattern shared by the three components *)

Inductive Component := EVM | SOLANA | SUBSTRATE.

(** The record type of a component's network list. *)
Definition NetworkData (c : Component) : Type :=
  match c with
  | EVM => Evm.NetworkData
  | SOLANA => Solana.NetworkData
  | SUBSTRATE => Substrate.NetworkData
  end.

(** The callback of [networks.filter] in [filteredNetworks]. *)
Definition networkFilter (c : Component) : string -> NetworkData c -> bool :=
  match c with
  | EVM => Evm.networkFilter
  | SOLANA => Solana.networkFilter
  | SUBSTRATE => Substrate.networkFilter
  end.

(** The field that [handleNetworkSelect] copies into the search box. *)
Definition displayName (c : Component) : NetworkData c -> string :=
  match c with
  | EVM => Evm.chainName
  | SOLANA => Solana.chainName
  | SUBSTRATE => Substrate.displayName
  end.


(** The static document a component fetches, and the key it reads. *)
Definition documentUrl (c : Component) : string :=
  match c with
  | EVM => "/json/evm.json"
  | SOLANA => "/json/solana.json"
  | SUBSTRATE => "/json/substrate.json"
  end.

Definition documentKey (c : Component) : string :=
  match c with
  | EVM => "archives"
  | SOLANA => "archives"
  | SUBSTRATE => "networks"
  end.

Definition Details (c : Component) : Type :=
  match c with
  | EVM => Evm.Details
  | SOLANA => Solana.Details
  | SUBSTRATE => Substrate.Details
  end.

Definition detailsPanel (c : Component) : NetworkData c -> Details c :=
  match c with
  | EVM => Evm.detailsPanel
  | SOLANA => Solana.detailsPanel
  | SUBSTRATE => Substrate.detailsPanel
  end.

(** [a.slice(b, e)] for [0 <= b <= e]. *)
Definition slice {A} (b e : nat) (a : list A) : list A :=
  take (e - b) (drop b a).

(** The five [useState] cells. *)
Record State (c : Component) := mkState {
  searchTerm : string;
  selectedNetwork : option (NetworkData c);
  isDropdownOpen : bool;
  networks : list (NetworkData c);
  loading : bool
}.
Arguments mkState {c}.
Arguments searchTerm {c}.
Arguments selectedNetwork {c}.
Arguments isDropdownOpen {c}.
Arguments networks {c}.
Arguments loading {c}.

Section Checker.

Variable c : Component.

Definition initialState : State c :=
  mkState "" None false [] true.

Definition setSearchTerm (v : string) (s : State c) : State c :=
  mkState v (selectedNetwork s) (isDropdownOpen s) (networks s) (loading s).

Definition setSelectedNetwork (v : option (NetworkData c)) (s : State c) : State c :=
  mkState (searchTerm s) v (isDropdownOpen s) (networks s) (loading s).

Definition setIsDropdownOpen (v : bool) (s : State c) : State c :=
  mkState (searchTerm s) (selectedNetwork s) v (networks s) (loading s).

Definition setNetworks (v : list (NetworkData c)) (s : State c) : State c :=
  mkState (searchTerm s) (selectedNetwork s) (isDropdownOpen s) v (loading s).

Definition setLoading (v : bool) (s : State c) : State c :=
  mkState (searchTerm s) (selectedNetwork s) (isDropdownOpen s) (networks s) v.

(** [filteredNetworks], the body of the [useMemo]. *)
Definition filteredNetworks (searchTerm : string) (networks : list (NetworkData c))
  : list (NetworkData c) :=
  if negb (JS.truthy searchTerm) then networks
  else slice 0 10 (List.filter (networkFilter c searchTerm) networks).

(** *** Event handlers *)

Definition handleNetworkSelect (network : NetworkData c) (s : State c) : State c :=
  setIsDropdownOpen false
    (setSearchTerm (displayName c network)
       (setSelectedNetwork (Some network) s)).

Definition handleInputChange (value : string) (s : State c) : State c :=
  setIsDropdownOpen true
    (setSelectedNetwork None
       (setSearchTerm value s)).

Definition handleInputFocus (s : State c) : State c :=
  setIsDropdownOpen true s.

(** The callback that [handleInputBlur] hands to [setTimeout]. *)
Definition closeDropdown (s : State c) : State c :=
  setIsDropdownOpen false s.

(** *** Loading the document *)

(** The value of a property of the parsed document, as far as
    [fetchNetworks] tells values apart: falsy ([null], [false], [0], the
    empty string) or an array of records.  The cell is declared to hold an
    array of records, so a truthy value of another kind under the key,
    which the component would store as it is, has no place in [State] and
    is left out. *)
Inductive PropertyValue :=
| FalsyValue
| RecordsValue (l : list (NetworkData c)).

(** What [await response.json()] resolves to. *)
Inductive Document :=
| DocNull                                          (* the JSON value null *)
| DocOther                                         (* a number, string, boolean or array *)
| DocObject (fields : gmap string PropertyValue).  (* an object and its properties *)

(** How the two awaited promises settle. *)
Inductive FetchOutcome :=
| FetchRejected                 (* [fetch] rejects *)
| JsonRejected                  (* [response.json()] rejects *)
| JsonResolved (data : Document).

Inductive Thrown := NetworkError | SyntaxError | TypeError.

(** [await fetch(url); await response.json()] *)
Definition awaitDocument (o : FetchOutcome) : Thrown + Document :=
  match o with
  | FetchRejected => inl NetworkError
  | JsonRejected => inl SyntaxError
  | JsonResolved data => inr data
  end.

(** [data.archives || []] (for Substrate [data.networks || []]): reading
    a property of null throws, a property that is absent reads as
    undefined. *)
Definition keyOrEmpty (data : Document) : Thrown + list (NetworkData c) :=
  match data with
  | DocNull => inl TypeError
  | DocOther => inr []
  | DocObject fields =>
      match fields !! documentKey c with
      | None => inr []
      | Some FalsyValue => inr []
      | Some (RecordsValue l) => inr l
      end
  end.

(** The [try] block. *)
Definition tryBlock (o : FetchOutcome) (s : State c) : Thrown + State c :=
  match awaitDocument o with
  | inl e => inl e
  | inr data =>
      match keyOrEmpty data with
      | inl e => inl e
      | inr l => inr (setNetworks l s)
      end
  end.

(** [fetchNetworks] from the settling of its promises on: [try], [catch]
    (the [console.error] line writes no state), [finally]. *)
Definition fetchNetworks (o : FetchOutcome) (s : State c) : State c :=
  let afterTry :=
    match tryBlock o s with
    | inr s' => s'
    | inl _ => setNetworks [] s
    end in
  setLoading false afterTry.

(** *** Rendering *)

(** What the component returns.  [dropdown] is the list of entries of the
    dropdown element in the order of the [map] call; the entry of a record
    [n] is given the key [entryKey c n].  React shows these entries as
    they are when their keys are distinct. *)
Record MainView := mkMainView {
  inputValue : string;
  dropdown : option (list (NetworkData c));
  details : option (Details c);
  notFound : option string
}.

Inductive View :=
| LoadingView
| RenderedView (v : MainView).

Definition render (s : State c) : View :=
  if loading s then LoadingView
  else
    let filtered := filteredNetworks (searchTerm s) (networks s) in
    RenderedView
      {| inputValue := searchTerm s;
         dropdown :=
           if isDropdownOpen s && (0 <? length filtered)%nat
           then Some filtered else None;
         details :=
           match selectedNetwork s with
           | Some n => Some (detailsPanel c n)
           | None => None
           end;
         notFound :=
           if JS.truthy (searchTerm s) &&
              match selectedNetwork s with Some _ => false | None => true end &&
              (length filtered =? 0)%nat
           then Some (searchTerm s) else None |}.

End Checker.

Arguments initialState {c}.
Arguments setSearchTerm {c}.
Arguments setSelectedNetwork {c}.
Arguments setIsDropdownOpen {c}.
Arguments setNetworks {c}.
Arguments setLoading {c}.
Arguments handleNetworkSelect {c}.
Arguments handleInputChange {c}.
Arguments handleInputFocus {c}.
Arguments closeDropdown {c}.
Arguments FalsyValue {c}.
Arguments RecordsValue {c}.
Arguments DocNull {c}.
Arguments DocOther {c}.
Arguments DocObject {c}.
Arguments FetchRejected {c}.
Arguments JsonRejected {c}.
Arguments JsonResolved {c}.
Arguments fetchNetworks {c}.
Arguments render {c}.
Arguments LoadingView {c}.
Arguments RenderedView {c}.
Arguments inputValue {c}.
Arguments dropdown {c}.
Arguments details {c}.
Arguments notFound {c}.

(** ** The mounted component: effects, timers and events *)

(** React's comparison of two dependency arrays: equal when no position
    holds two different values. *)
Fixpoint areHookInputsEqual (nextDeps prevDeps : list string) : bool :=
  match nextDeps, prevDeps with
  | x :: nextDeps', y :: prevDeps' =>
      if String.eqb x y then areHookInputsEqual nextDeps' prevDeps' else false
  | _, _ => true
  end.

(** The dependency array of the effect that calls [fetchNetworks]: [[]]. *)
Definition fetchEffectDeps : list string := [].

Record Mounted (c : Component) := mkMounted {
  ui : State c;
  pendingTimeouts : nat;                 (* [setTimeout] callbacks not yet run *)
  pendingFetches : nat;                  (* [fetchNetworks] calls not yet settled *)
  fetchLog : list string;                (* arguments of the [fetch] calls, oldest first *)
  committedDeps : option (list string)   (* dependencies of the effect at its last run *)
}.
Arguments mkMounted {c}.
Arguments ui {c}.
Arguments pendingTimeouts {c}.
Arguments pendingFetches {c}.
Arguments fetchLog {c}.
Arguments committedDeps {c}.

Section Lifecycle.

Variable c : Component.

Definition withUi (f : State c -> State c) (w : Mounted c) : Mounted c :=
  mkMounted (f (ui w)) (pendingTimeouts w) (pendingFetches w) (fetchLog w)
    (committedDeps w).

(** The effect body: [fetchNetworks()] runs up to its first [await], which
    issues the [fetch]. *)
Definition runFetchEffect (w : Mounted c) : Mounted c :=
  mkMounted (ui w) (pendingTimeouts w) (S (pendingFetches w))
    (fetchLog w ++ [documentUrl c]) (Some fetchEffectDeps).

(** After a render is committed the effect runs on the first commit, and
    on a later one only if its dependencies changed. *)
Definition commitEffects (w : Mounted c) : Mounted c :=
  match committedDeps w with
  | None => runFetchEffect w
  | Some prevDeps =>
      if areHookInputsEqual fetchEffectDeps prevDeps then w
      else runFetchEffect w
  end.

Definition mount : Mounted c :=
  commitEffects (mkMounted initialState 0 0 [] None).

(** [handleInputBlur]: the dropdown is closed by a timer, not now. *)
Definition handleInputBlur (w : Mounted c) : Mounted c :=
  mkMounted (ui w) (S (pendingTimeouts w)) (pendingFetches w) (fetchLog w)
    (committedDeps w).

Inductive Event :=
| Change (value : string)        (* typing: [onChange] of the input *)
| Focus                          (* [onFocus] of the input *)
| Blur                           (* [onBlur] of the input *)
| Select (i : nat)               (* click on the i-th entry of the dropdown *)
| TimeoutFires                   (* a pending [setTimeout] callback runs *)
| FetchSettles (o : FetchOutcome c).

(** The entries a click can reach: those of the rendered dropdown. *)
Definition clickable (s : State c) : list (NetworkData c) :=
  match render s with
  | LoadingView => []
  | RenderedView v =>
      match dropdown v with
      | Some entries => entries
      | None => []
      end
  end.

(** An event reaches its handler when the element that carries the
    handler is rendered; the input is not rendered while loading. *)
Definition handle (e : Event) (w : Mounted c) : Mounted c :=
  match e with
  | Change value =>
      if loading (ui w) then w else withUi (handleInputChange value) w
  | Focus =>
      if loading (ui w) then w else withUi handleInputFocus w
  | Blur =>
      if loading (ui w) then w else handleInputBlur w
  | Select i =>
      match clickable (ui w) !! i with
      | Some network => withUi (handleNetworkSelect network) w
      | None => w
      end
  | TimeoutFires =>
      match pendingTimeouts w with
      | O => w
      | S k =>
          mkMounted (closeDropdown (ui w)) k (pendingFetches w) (fetchLog w)
            (committedDeps w)
      end
  | FetchSettles o =>
      match pendingFetches w with
      | O => w
      | S k =>
          mkMounted (fetchNetworks o (ui w)) (pendingTimeouts w) k (fetchLog w)
            (committedDeps w)
      end
  end.

(** One event: the handler runs, the component re-renders, effects are
    committed. *)
Definition step (w : Mounted c) (e : Event) : Mounted c :=
  commitEffects (handle e w).

Definition run (events : list Event) (w : Mounted c) : Mounted c :=
  fold_left step events w.

(** Whenever a network is selected, the search box shows its name. *)
Definition selectionShown (s : State c) : Prop :=
  forall n, selectedNetwork s = Some n -> searchTerm s = displayName c n.

End Lifecycle.

Arguments withUi {c}.
Arguments runFetchEffect {c}.
Arguments commitEffects {c}.
Arguments mount {c}.
Arguments handleInputBlur {c}.
Arguments Change {c}.
Arguments Focus {c}.
Arguments Blur {c}.
Arguments Select {c}.
Arguments TimeoutFires {c}.
Arguments FetchSettles {c}.
Arguments clickable {c}.
Arguments handle {c}.
Arguments step {c}.
Arguments run {c}.
Arguments selectionShown {c}.

(** ** The same computations on a store of mutable objects

    [filteredNetworks] returns the array held by the [networks] cell itself
    when the search term is empty, and [getAvailableData] ends with an
    in-place [sort].  To see what these computations can write to, arrays
    and sets live at locations of a store and a computation passes the
    store along.  Network records are immutable values inside the array
    object that holds them. *)

Module Store.

Definition loc := positive.

Inductive Obj (c : Component) :=
| NetworkArray (elems : list (NetworkData c))
| StringArray (elems : list string)
| StringSet (elems : list string).
Arguments NetworkArray {c}.
Arguments StringArray {c}.
Arguments StringSet {c}.

Abbreviation Heap c := (gmap loc (Obj c)).

(** A computation: [None] is a thrown [TypeError] (an operation applied
    to an object of the wrong kind). *)
Definition M (c : Component) (A : Type) : Type :=
  Heap c -> option (A * Heap c).

Definition ret {c A} (x : A) : M c A :=
  fun h => Some (x, h).

Definition bind {c A B} (m : M c A) (k : A -> M c B) : M c B :=
  fun h =>
    match m h with
    | Some (x, h') => k x h'
    | None => None
    end.

Notation "'do' x <- m ; k" := (bind m (fun x => k))
  (at level 10, x name, m at level 100, k at level 200).

(** A new object is placed at a location that is not in use. *)
Definition alloc {c} (o : Obj c) : M c loc :=
  fun h => let l := fresh (dom h) in Some (l, <[l := o]> h).

(** [a.filter(p)]: a new array. *)
Definition arrayFilter {c} (p : NetworkData c -> bool) (a : loc) : M c loc :=
  fun h =>
    match h !! a with
    | Some (NetworkArray elems) => alloc (NetworkArray (List.filter p elems)) h
    | _ => None
    end.

(** [a.slice(b, e)]: a new array. *)
Definition arraySlice {c} (b e : nat) (a : loc) : M c loc :=
  fun h =>
    match h !! a with
    | Some (NetworkArray elems) => alloc (NetworkArray (slice b e elems)) h
    | _ => None
    end.

(** [new Set<string>()] *)
Definition newSet {c} : M c loc :=
  alloc (StringSet []).

(** [s.add(x)]: writes to the set [s]. *)
Definition setAdd {c} (s : loc) (x : string) : M c unit :=
  fun h =>
    match h !! s with
    | Some (StringSet elems) => Some (tt, <[s := StringSet (JS.setAdd x elems)]> h)
    | _ => None
    end.

(** [Array.from(s)]: a new array of the elements in insertion order. *)
Definition arrayFrom {c} (s : loc) : M c loc :=
  fun h =>
    match h !! s with
    | Some (StringSet elems) => alloc (StringArray elems) h
    | _ => None
    end.

(** [a.sort()]: sorts the array [a] in place and returns [a]. *)
Definition arraySort {c} (a : loc) : M c loc :=
  fun h =>
    match h !! a with
    | Some (StringArray elems) =>
        Some (a, <[a := StringArray (JS.sortStrings elems)]> h)
    | _ => None
    end.

(** [l.forEach(f)] over an immutable list. *)
Fixpoint forEach {c A} (l : list A) (f : A -> M c unit) : M c unit :=
  match l with
  | [] => ret tt
  | x :: rest => do _ <- f x; forEach rest f
  end.

(** [filteredNetworks]; [networks] is the array the state cell refers to,
    the result is a reference too. *)
Definition filteredNetworks (c : Component) (searchTerm : string) (networks : loc)
  : M c loc :=
  if negb (JS.truthy searchTerm) then ret networks
  else
    do matching <- arrayFilter (networkFilter c searchTerm) networks;
    arraySlice 0 10 matching.

(** [getAvailableData] of the EVM component. *)
Definition getAvailableDataEvm (network : Evm.NetworkData) : M EVM loc :=
  do allData <- newSet;
  do _ <- forEach (Evm.providers network) (fun provider =>
            forEach (Evm.data provider) (fun item =>
              match item with
              | Evm.ItemString s => setAdd allData s
              | Evm.ItemObject name _ => setAdd allData name
              end));
  do fromSet <- arrayFrom allData;
  arraySort fromSet.

(** [getAvailableData] of the Solana component. *)
Definition getAvailableDataSolana (network : Solana.NetworkData) : M SOLANA loc :=
  do allData <- newSet;
  do _ <- forEach (Solana.providers network) (fun provider =>
            forEach (Solana.data provider) (fun item =>
              setAdd allData (Solana.name item)));
  do fromSet <- arrayFrom allData;
  arraySort fromSet.

(** Every object of [h] is still in [h'], unchanged. *)
Definition unchanged {c} (h h' : Heap c) : Prop :=
  forall l o, h !! l = Some o -> h' !! l = Some o.

End Store.

(** ** Vocabulary of the properties *)

(** [sub] occurs in [s] as a run of consecutive code units. *)
Definition occursIn (sub s : string) : Prop :=
  exists pre post, s = pre +:+ sub +:+ post.

(** [p] is an initial segment of [s]. *)
Definition prefixOf (p s : string) : Prop :=
  exists rest, s = p +:+ rest.

(** The fields of a record that the component's filter looks at, as
    strings; a field that is null contributes nothing. *)
Definition searchedFields (c : Component) : NetworkData c -> list string :=
  match c return NetworkData c -> list string with
  | EVM => fun n : Evm.NetworkData =>
      [Evm.chainName n; JS.numberToString (Evm.chainId n); Evm.id n]
  | SOLANA => fun n : Solana.NetworkData =>
      [Solana.chainName n; Solana.id n; Solana.network n]
  | SUBSTRATE => fun n : Substrate.NetworkData =>
      [Substrate.displayName n; Substrate.name n]
      ++ option_list (Substrate.parachainId n)
      ++ option_list (Substrate.relayChain n)
  end.

(** The fetch or the parsing failed, or the parsed document has no
    property under the component's key. *)
Definition failedOrKeyless {c : Component} (o : FetchOutcome c) : Prop :=
  match o with
  | FetchRejected => True
  | JsonRejected => True
  | JsonResolved DocNull => True
  | JsonResolved DocOther => True
  | JsonResolved (DocObject fields) => fields !! documentKey c = None
  end.

(** Matching by case-insensitive substring on every searched field. *)
Definition substringMatch (c : Component) (searchTerm : string) (n : NetworkData c) : Prop :=
  exists field, In field (searchedFields c n) /\
    occursIn (JS.toLowerCase searchTerm) (JS.toLowerCase field).

(** ** Sample documents *)

Module Sample.

Definition polygon : Evm.NetworkData :=
  {| Evm.chainId := 137;
     Evm.chainName := "Polygon";
     Evm.id := "polygon-mainnet";
     Evm.isTestnet := None;
     Evm.logoUrl := "/img/polygon.svg";
     Evm.network := "polygon-mainnet";
     Evm.providers :=
       [ {| Evm.data := [Evm.ItemString "logs";
                         Evm.ItemObject "blocks" [(BoundNumber 0, BoundNull)];
                         Evm.ItemString "blocks"];
            Evm.dataSourceUrl := "https://a.example/polygon";
            Evm.provider := "a";
            Evm.release := "ArrowSquid";
            Evm.supportTier := 1 |};
         {| Evm.data := [Evm.ItemString "traces"; Evm.ItemString "logs"];
            Evm.dataSourceUrl := "https://b.example/polygon";
            Evm.provider := "b";
            Evm.release := "ArrowSquid";
            Evm.supportTier := 2 |} ] |}.

Definition solanaMainnet : Solana.NetworkData :=
  {| Solana.id := "solana-mainnet";
     Solana.chainName := "Solana";
     Solana.isTestnet := false;
     Solana.network := "solana-mainnet";
     Solana.providers :=
       [ {| Solana.data :=
              [ {| Solana.name := "transactions"; Solana.ranges := [(Some "0", None)] |};
                {| Solana.name := "blocks"; Solana.ranges := [(Some "0", None)] |};
                {| Solana.name := "transactions"; Solana.ranges := [] |} ];
            Solana.dataSourceUrl := "https://a.example/solana";
            Solana.provider := "a";
            Solana.release := "ArrowSquid";
            Solana.supportTier := 1 |} ] |}.

Definition moonbeam : Substrate.NetworkData :=
  {| Substrate.name := "moonbeam";
     Substrate.displayName := "Moonbeam";
     Substrate.tokens := ["GLMR"];
     Substrate.website := "https://moonbeam.example";
     Substrate.description := "";
     Substrate.relayChain := Some "Polkadot";
     Substrate.parachainId := Some "2004" |}.

(** A document of eleven records. *)
Definition elevenEvm : list (NetworkData EVM) := replicate 11 polygon.
Definition elevenSolana : list (NetworkData SOLANA) := replicate 11 solanaMainnet.

(** A search that matches nothing, and what is rendered for it. *)
Definition searchingZz : State EVM :=
  mkState (c:=EVM) "zz" None true [polygon] false.
Definition searchingZzView : MainView EVM :=
  mkMainView EVM "zz" None None (Some "zz").

(** The sample record selected, on a store that holds the network list. *)
Definition polygonSelected : Mounted EVM :=
  mkMounted (mkState (c:=EVM) "Polygon" (Some polygon) false [polygon] false)
    0 0 ["/json/evm.json"] (Some []).

(** A store whose location 1 holds the network list. *)
Definition store : Store.Heap EVM :=
  {[ 1%positive := Store.NetworkArray (c:=EVM) elevenEvm ]}.

(** A document without the [archives] key. *)
Definition keylessDocument : FetchOutcome EVM :=
  JsonResolved (DocObject {["chains" := RecordsValue (c:=EVM) [polygon]]}).

End Sample.

(** ** Vocabulary of the further properties *)


(** The event is the settling of the fetch. *)
Definition settles {c : Component} (e : Event c) : bool :=
  match e with
  | FetchSettles _ => true
  | _ => false
  end.

(** What holds of a mounted component after any events: the effect has
    run with its dependencies, at most one fetch is pending, while it is
    pending the component is loading with nothing selected, and a selected
    network is a record of the network list. *)
Definition consistent {c : Component} (w : Mounted c) : Prop :=
  committedDeps w = Some fetchEffectDeps /\
  pendingFetches w <= 1 /\
  (pendingFetches w = 1 -> loading (ui w) = true) /\
  (loading (ui w) = true -> selectedNetwork (ui w) = None) /\
  (forall n, selectedNetwork (ui w) = Some n -> In n (networks (ui w))).

(** The component has its network list: nothing is pending, it is not
    loading, and the list is [l]. *)
Definition loadedWith {c : Component} (l : list (NetworkData c)) (w : Mounted c) : Prop :=
  committedDeps w = Some fetchEffectDeps /\
  pendingFetches w = 0 /\
  loading (ui w) = false /\
  networks (ui w) = l.

(** The names listed by the providers of a network, with repetitions. *)
Definition evmListedNames (n : Evm.NetworkData) : list string :=
  concat (map (fun p => map Evm.itemName (Evm.data p)) (Evm.providers n)).

Definition solanaListedNames (n : Solana.NetworkData) : list string :=
  concat (map (fun p => map Solana.name (Solana.data p)) (Solana.providers n)).

Module SampleRuns.

(** The document of the sample record. *)
Definition polygonFields : gmap string (PropertyValue EVM) :=
  {["archives" := RecordsValue (c:=EVM) [Sample.polygon]]}.

Definition polygonDocument : FetchOutcome EVM :=
  JsonResolved (DocObject polygonFields).

(** Loading it, opening the dropdown and clicking its first entry. *)
Definition loadAndSelect : list (Event EVM) :=
  [FetchSettles polygonDocument; Focus; Select 0].

(** The sample record with its providers in the other order. *)
Definition polygonReordered : Evm.NetworkData :=
  {| Evm.chainId := Evm.chainId Sample.polygon;
     Evm.chainName := Evm.chainName Sample.polygon;
     Evm.id := Evm.id Sample.polygon;
     Evm.isTestnet := Evm.isTestnet Sample.polygon;
     Evm.logoUrl := Evm.logoUrl Sample.polygon;
     Evm.network := Evm.network Sample.polygon;
     Evm.providers := rev (Evm.providers Sample.polygon) |}.


End SampleRuns.

(** * Properties *)

(** ** Strings *)

Section StringFacts.

Lemma startsWith_prefixOf s p : JS.startsWith s p = true <-> prefixOf p s.
Proof.
  revert s; induction p as [|a p IH]; intros s; simpl.
  - split; [intros _; by exists s | done].
  - destruct s as [|b s].
    + split; [done | intros [rest Hr]; discriminate Hr].
    + destruct (Ascii.eqb a b) eqn:Hab.
      * apply Ascii.eqb_eq in Hab as ->. rewrite IH. split.
        -- intros [rest ->]. by exists rest.
        -- intros [rest Hr]. injection Hr as ->. by exists rest.
      * apply Ascii.eqb_neq in Hab. split; [done|].
        intros [rest Hr]. injection Hr as Hba _. congruence.
Qed.

Lemma includes_occursIn s sub : JS.includes s sub = true <-> occursIn sub s.
Proof.
  induction s as [|b s IH]; simpl.
  - rewrite orb_false_r, startsWith_prefixOf. split.
    + intros [rest Hr]. by exists "", rest.
    + intros [[|x pre] [post Hp]]; [by exists post | discriminate Hp].
  - rewrite orb_true_iff, startsWith_prefixOf, IH. split.
    + intros [[rest Hr] | (pre & post & Hs)].
      * by exists "", rest.
      * exists (String b pre), post. simpl. by rewrite Hs.
    + intros ([|x pre] & post & Hs); simpl in Hs.
      * left. by exists post.
      * right. injection Hs as -> ->. by exists pre, post.
Qed.

Lemma truthy_nonempty s : JS.truthy s = true <-> s <> "".
Proof. destruct s; simpl; split; congruence. Qed.

End StringFacts.

(** ** The search filter *)

Section Filter.

Variable c : Component.

Lemma slice_from_start {A} k (l : list A) : slice 0 k l = take k l.
Proof. unfold slice. by rewrite Nat.sub_0_r, drop_0. Qed.

Lemma filteredNetworks_empty (l : list (NetworkData c)) :
  filteredNetworks c "" l = l.
Proof. reflexivity. Qed.

Lemma filteredNetworks_nonempty t (l : list (NetworkData c)) :
  t <> "" ->
  filteredNetworks c t l = take 10 (List.filter (networkFilter c t) l).
Proof.
  intros Ht. unfold filteredNetworks.
  apply truthy_nonempty in Ht. rewrite Ht. simpl. apply slice_from_start.
Qed.

Lemma filter_sublist {A} (p : A -> bool) (l : list A) :
  sublist (List.filter p l) l.
Proof.
  induction l as [|x l IH]; simpl.
  - constructor.
  - destruct (p x); by constructor.
Qed.

(** A capped filter keeps exactly the matches of an initial part of the
    list, and drops nothing unless the cap is reached. *)
Lemma take_filter_split {A} (p : A -> bool) k (l : list A) :
  exists pre post,
    l = pre ++ post /\
    take k (List.filter p l) = List.filter p pre /\
    (post = [] \/ length (take k (List.filter p l)) = k).
Proof.
  revert k; induction l as [|x l IH]; intros k.
  - exists [], []. simpl. rewrite take_nil. auto.
  - destruct k as [|k].
    + exists [], (x :: l). simpl. auto.
    + simpl. destruct (p x) eqn:Hx.
      * destruct (IH k) as (pre & post & -> & Htake & Hcap).
        exists (x :: pre), post. simpl. rewrite Hx, Htake.
        split; [done|]. split; [done|].
        destruct Hcap as [-> | Hlen]; [by left|].
        right. rewrite <- Htake. simpl. by rewrite Hlen.
      * destruct (IH (S k)) as (pre & post & -> & Htake & Hcap).
        exists (x :: pre), post. simpl. rewrite Hx. auto.
Qed.

End Filter.

(** C1 (amended).  For a non-empty search term the filtered list of every
    component has at most 10 elements; for the empty search term the
    filtered list is the whole network list, whatever its length. *)
Theorem filteredNetworks_at_most_ten
    (c : Component) (searchTerm : string) (networks : list (NetworkData c)) :
  searchTerm <> "" ->
  length (filteredNetworks c searchTerm networks) <= 10 /\
  filteredNetworks c "" networks = networks.
Proof.
  intros Hterm. split; [|reflexivity].
  rewrite filteredNetworks_nonempty by done.
  rewrite length_take. lia.
Qed.

Lemma filteredNetworks_at_most_ten_witness :
  "pol" <> "" /\
  length (filteredNetworks EVM "pol" Sample.elevenEvm) <= 10 /\
  filteredNetworks EVM "" Sample.elevenEvm = Sample.elevenEvm.
Proof.
  split; [discriminate|].
  apply (filteredNetworks_at_most_ten EVM "pol" Sample.elevenEvm). discriminate.
Defined.

(** C1 as stated fails: with the empty search term a list of eleven
    records is passed through whole. *)
Lemma empty_term_list_exceeds_ten :
  ~ (length (filteredNetworks SOLANA "" Sample.elevenSolana) <= 10).
Proof. vm_compute. lia. Qed.

(** C2 (amended).  The filter callbacks match name-like fields by
    case-insensitive substring, and the numeric identifiers by prefix of
    the search term as typed: Solana matches exactly when the lowercased
    term occurs in the lowercased [chainName], [id] or [network]; EVM when
    it occurs in the lowercased [chainName] or [id], or the term as typed
    is a prefix of the decimal [chainId]; Substrate when it occurs in the
    lowercased [displayName], [name] or non-empty [relayChain], or the term
    as typed is a prefix of the non-empty [parachainId]. *)
Theorem networkFilter_matching
    (searchTerm : string)
    (e : Evm.NetworkData) (s : Solana.NetworkData) (b : Substrate.NetworkData) :
  (networkFilter SOLANA searchTerm s = true <-> substringMatch SOLANA searchTerm s) /\
  (networkFilter EVM searchTerm e = true <->
     occursIn (JS.toLowerCase searchTerm) (JS.toLowerCase (Evm.chainName e)) \/
     prefixOf searchTerm (JS.numberToString (Evm.chainId e)) \/
     occursIn (JS.toLowerCase searchTerm) (JS.toLowerCase (Evm.id e))) /\
  (networkFilter SUBSTRATE searchTerm b = true <->
     occursIn (JS.toLowerCase searchTerm) (JS.toLowerCase (Substrate.displayName b)) \/
     occursIn (JS.toLowerCase searchTerm) (JS.toLowerCase (Substrate.name b)) \/
     (exists p, Substrate.parachainId b = Some p /\ p <> "" /\ prefixOf searchTerm p) \/
     (exists r, Substrate.relayChain b = Some r /\ r <> "" /\
                occursIn (JS.toLowerCase searchTerm) (JS.toLowerCase r))).
Proof.
  split; [|split].
  - unfold substringMatch. simpl. unfold Solana.networkFilter.
    rewrite !orb_true_iff, !includes_occursIn. split.
    + intros [[H | H] | H]; eexists; (split; [|exact H]); simpl; auto.
    + intros (field & Hin & Hocc). simpl in Hin.
      destruct Hin as [<- | [<- | [<- | []]]]; auto.
  - simpl. unfold Evm.networkFilter.
    rewrite !orb_true_iff, !includes_occursIn, startsWith_prefixOf. tauto.
  - simpl. unfold Evm.networkFilter, Substrate.networkFilter.
    rewrite !orb_true_iff, !includes_occursIn.
    assert (Hg : forall x (f : string -> bool) (P : string -> Prop),
               (forall v, f v = true <-> P v) ->
               Substrate.guarded x f = true <-> exists v, x = Some v /\ v <> "" /\ P v).
    { intros x f P Hf. unfold Substrate.guarded. destruct x as [v|].
      - destruct (JS.truthy v) eqn:Hv.
        + apply truthy_nonempty in Hv. rewrite Hf. split.
          * intros HP. by exists v.
          * intros (v' & [= <-] & _ & HP). exact HP.
        + split; [done|]. intros (v' & [= <-] & Hne & _).
          apply truthy_nonempty in Hne. congruence.
      - split; [done|]. intros (v' & Hv' & _). discriminate Hv'. }
    rewrite (Hg _ _ (fun p => prefixOf searchTerm p))
      by (intros v; apply startsWith_prefixOf).
    rewrite (Hg _ _ (fun r => occursIn (JS.toLowerCase searchTerm) (JS.toLowerCase r)))
      by (intros v; apply includes_occursIn).
    tauto.
Qed.

(** C2 as stated fails: "37" occurs in the chain id 137 of the sample
    record, yet the EVM filter rejects the record, because the chain id is
    compared by prefix. *)
Lemma chain_id_is_matched_by_prefix :
  ~ (networkFilter EVM "37" Sample.polygon = true <->
     substringMatch EVM "37" Sample.polygon).
Proof.
  intros [_ Hback].
  assert (Hfalse : networkFilter EVM "37" Sample.polygon = false) by reflexivity.
  rewrite Hback in Hfalse; [discriminate|].
  exists "137". split; [simpl; auto|].
  by exists "1", "".
Qed.

(** C3.  For a non-empty search term the filtered list is the first ten
    (or fewer) matching records in the order of the network list: it is a
    subsequence of the network list, it consists of all the matches of an
    initial part [kept] of that list, and matches are left out (they lie in
    the remaining part [rest]) only when ten have been kept. *)
Theorem filteredNetworks_first_matches
    (c : Component) (searchTerm : string) (networks : list (NetworkData c)) :
  searchTerm <> "" ->
  filteredNetworks c searchTerm networks
    = take 10 (List.filter (networkFilter c searchTerm) networks) /\
  sublist (filteredNetworks c searchTerm networks) networks /\
  exists kept rest,
    networks = kept ++ rest /\
    filteredNetworks c searchTerm networks
      = List.filter (networkFilter c searchTerm) kept /\
    (rest = [] \/ length (filteredNetworks c searchTerm networks) = 10).
Proof.
  intros Hterm. rewrite filteredNetworks_nonempty by done.
  split; [done|]. split.
  - etrans; [apply sublist_take | apply filter_sublist].
  - apply take_filter_split.
Qed.

Lemma filteredNetworks_first_matches_witness :
  "pol" <> "" /\
  filteredNetworks EVM "pol" Sample.elevenEvm
    = take 10 (List.filter (networkFilter EVM "pol") Sample.elevenEvm) /\
  sublist (filteredNetworks EVM "pol" Sample.elevenEvm) Sample.elevenEvm /\
  exists kept rest,
    Sample.elevenEvm = kept ++ rest /\
    filteredNetworks EVM "pol" Sample.elevenEvm
      = List.filter (networkFilter EVM "pol") kept /\
    (rest = [] \/ length (filteredNetworks EVM "pol" Sample.elevenEvm) = 10).
Proof.
  split; [discriminate|].
  apply (filteredNetworks_first_matches EVM "pol" Sample.elevenEvm). discriminate.
Defined.

(** ** Available data *)

Section SetOfNames.

Lemma setAdd_In x y l : In x (JS.setAdd y l) <-> x = y \/ In x l.
Proof.
  induction l as [|z l IH]; simpl.
  - intuition.
  - destruct (String.eqb y z) eqn:Hyz; simpl.
    + apply String.eqb_eq in Hyz as ->. intuition.
    + rewrite IH. intuition.
Qed.

Lemma setAdd_NoDup y l : NoDup l -> NoDup (JS.setAdd y l).
Proof.
  induction 1 as [|z l Hz Hl IH]; simpl.
  - apply NoDup_singleton.
  - destruct (String.eqb y z) eqn:Hyz.
    + by constructor.
    + apply String.eqb_neq in Hyz. constructor; [|done].
      rewrite list_elem_of_In, setAdd_In, <- list_elem_of_In.
      intros [-> | Hin]; done.
Qed.

(** One [forEach] over the items of a provider, then over providers. *)
Context {Item Provider : Type}.
Variable name : Item -> string.
Variable data : Provider -> list Item.
Variable add : list string -> Item -> list string.
Hypothesis add_setAdd : forall acc item, add acc item = JS.setAdd (name item) acc.

Lemma items_In items acc x :
  In x (fold_left add items acc) <->
  In x acc \/ exists item, In item items /\ name item = x.
Proof.
  revert acc; induction items as [|i items IH]; intros acc; simpl.
  - split; [auto | intros [H | (item & [] & _)]; done].
  - rewrite IH, add_setAdd, setAdd_In. split.
    + intros [[-> | H] | (item & Hin & Hx)]; eauto.
    + intros [H | (item & [<- | Hin] & Hx)]; eauto.
Qed.

Lemma items_NoDup items acc : NoDup acc -> NoDup (fold_left add items acc).
Proof.
  revert acc; induction items as [|i items IH]; intros acc Hacc; simpl; [done|].
  apply IH. rewrite add_setAdd. by apply setAdd_NoDup.
Qed.

Lemma providers_In ps acc x :
  In x (fold_left (fun acc p => fold_left add (data p) acc) ps acc) <->
  In x acc \/ exists p item, In p ps /\ In item (data p) /\ name item = x.
Proof.
  revert acc; induction ps as [|q ps IH]; intros acc; simpl.
  - split; [auto | intros [H | (p & item & [] & _)]; done].
  - rewrite IH, items_In. split.
    + intros [[H | (item & Hin & Hx)] | (p & item & Hp & Hin & Hx)]; eauto 8.
    + intros [H | (p & item & [<- | Hp] & Hin & Hx)]; eauto 8.
Qed.

Lemma providers_NoDup ps acc :
  NoDup acc -> NoDup (fold_left (fun acc p => fold_left add (data p) acc) ps acc).
Proof.
  revert acc; induction ps as [|q ps IH]; intros acc Hacc; simpl; [done|].
  apply IH. by apply items_NoDup.
Qed.

End SetOfNames.

Section Sorting.

Lemma sortStrings_In x l : In x (JS.sortStrings l) <-> In x l.
Proof.
  unfold JS.sortStrings. rewrite <- !list_elem_of_In.
  by rewrite merge_sort_Permutation.
Qed.

Lemma sortStrings_NoDup l : NoDup l -> NoDup (JS.sortStrings l).
Proof.
  unfold JS.sortStrings. intros H. by rewrite merge_sort_Permutation.
Qed.

Lemma le_ne_strLt a b : String.le a b -> a <> b -> JS.strLt a b.
Proof.
  unfold String.le, JS.strLt, String.leb, String.ltb. intros Hle Hne.
  destruct (String.compare a b) eqn:Hcmp; [|done|done].
  apply String.compare_eq_iff in Hcmp. done.
Qed.

(** Sorted and free of duplicates is strictly sorted. *)
Lemma strictly_sorted l :
  StronglySorted String.le l -> NoDup l -> StronglySorted JS.strLt l.
Proof.
  induction 1 as [|a l Hl IH Ha]; intros Hnd; constructor.
  - apply IH. by apply NoDup_cons_1_2 in Hnd.
  - apply NoDup_cons in Hnd as [Hnotin _].
    apply Forall_forall. intros b Hb. apply le_ne_strLt.
    + rewrite Forall_forall in Ha. by apply Ha.
    + intros ->. done.
Qed.

(** The result does not depend on the sorting algorithm of the engine:
    it is the only sorted arrangement of the elements. *)
Lemma sortStrings_unique l l' :
  l' ≡ₚ l -> Sorted String.le l' -> l' = JS.sortStrings l.
Proof.
  intros Hperm Hsorted. apply (Sorted_unique String.le); [done| |].
  - apply Sorted_merge_sort; apply _.
  - unfold JS.sortStrings. by rewrite merge_sort_Permutation.
Qed.

Lemma sortStrings_strictly_sorted l :
  NoDup l -> StronglySorted JS.strLt (JS.sortStrings l).
Proof.
  intros Hnd. apply strictly_sorted.
  - apply StronglySorted_merge_sort; apply _.
  - by apply sortStrings_NoDup.
Qed.

End Sorting.

Lemma evm_add_setAdd acc item :
  match item with
  | Evm.ItemString s => JS.setAdd s acc
  | Evm.ItemObject name _ => JS.setAdd name acc
  end = JS.setAdd (Evm.itemName item) acc.
Proof. by destruct item. Qed.

(** C4.  The dataset badges of the details panel of the EVM and Solana
    components are [getAvailableData] of the selected network, and a name
    is among them exactly when some provider of that network lists a data
    item with that name (for EVM an item may be the bare name). *)
Theorem getAvailableData_aggregates
    (x : string) (e : Evm.NetworkData) (s : Solana.NetworkData) :
  Evm.dataBadges (detailsPanel EVM e) = Evm.getAvailableData e /\
  Solana.dataBadges (detailsPanel SOLANA s) = Solana.getAvailableData s /\
  (In x (Evm.getAvailableData e) <->
     exists p item, In p (Evm.providers e) /\ In item (Evm.data p) /\
                    Evm.itemName item = x) /\
  (In x (Solana.getAvailableData s) <->
     exists p item, In p (Solana.providers s) /\ In item (Solana.data p) /\
                    Solana.name item = x).
Proof.
  split; [reflexivity|]. split; [reflexivity|]. split.
  - unfold Evm.getAvailableData, Evm.collect. rewrite sortStrings_In.
    etrans; [apply (providers_In Evm.itemName Evm.data _ evm_add_setAdd)|].
    simpl. tauto.
  - unfold Solana.getAvailableData, Solana.collect. rewrite sortStrings_In.
    etrans; [apply (providers_In Solana.name Solana.data _ (fun _ _ => eq_refl))|].
    simpl. tauto.
Qed.

(** C10.  [getAvailableData] of the EVM and Solana components returns a
    list in strictly ascending code-unit order, hence without duplicates,
    also when providers repeat a dataset name. *)
Theorem getAvailableData_strictly_sorted
    (e : Evm.NetworkData) (s : Solana.NetworkData) :
  StronglySorted JS.strLt (Evm.getAvailableData e) /\
  NoDup (Evm.getAvailableData e) /\
  StronglySorted JS.strLt (Solana.getAvailableData s) /\
  NoDup (Solana.getAvailableData s).
Proof.
  assert (He : NoDup (Evm.collect e)).
  { apply (providers_NoDup Evm.itemName Evm.data _ evm_add_setAdd). constructor. }
  assert (Hs : NoDup (Solana.collect s)).
  { apply (providers_NoDup Solana.name Solana.data _ (fun _ _ => eq_refl)). constructor. }
  unfold Evm.getAvailableData, Solana.getAvailableData.
  repeat split; auto using sortStrings_strictly_sorted, sortStrings_NoDup.
Qed.

(** ** Rendering *)

(** C5.  Each component in a non-loading state renders its main view, and
    in it the details panel is rendered exactly when a network is selected
    (it is then the panel of that network), the not-found message exactly
    when the search term is non-empty, no network is selected and the
    filtered list is empty; the two are never rendered together. *)
Theorem details_and_not_found (c : Component) (s : State c) :
  loading s = false ->
  exists v : MainView c,
    render s = RenderedView v /\
    details v = option_map (detailsPanel c) (selectedNetwork s) /\
    (is_Some (details v) <-> is_Some (selectedNetwork s)) /\
    (is_Some (notFound v) <->
       searchTerm s <> "" /\ selectedNetwork s = None /\
       filteredNetworks c (searchTerm s) (networks s) = []) /\
    ~ (is_Some (details v) /\ is_Some (notFound v)).
Proof.
  intros Hl. unfold render. rewrite Hl. eexists. split; [reflexivity|]. simpl.
  set (filtered := filteredNetworks c (searchTerm s) (networks s)).
  rewrite <- truthy_nonempty.
  destruct (selectedNetwork s) as [n|], (JS.truthy (searchTerm s)),
    filtered as [|x filtered']; simpl;
    rewrite <- ?not_eq_None_Some; repeat split; try done; intuition congruence.
Qed.

(** The sample record selected: its details panel is rendered, the
    not-found message is not. *)
Lemma details_and_not_found_witness :
  loading (ui Sample.polygonSelected) = false /\
  exists v : MainView EVM,
    render (ui Sample.polygonSelected) = RenderedView v /\
    details v = option_map (detailsPanel EVM) (selectedNetwork (ui Sample.polygonSelected)) /\
    (is_Some (details v) <-> is_Some (selectedNetwork (ui Sample.polygonSelected))) /\
    (is_Some (notFound v) <->
       searchTerm (ui Sample.polygonSelected) <> "" /\
       selectedNetwork (ui Sample.polygonSelected) = None /\
       filteredNetworks EVM (searchTerm (ui Sample.polygonSelected))
         (networks (ui Sample.polygonSelected)) = []) /\
    ~ (is_Some (details v) /\ is_Some (notFound v)).
Proof.
  split; [reflexivity|].
  apply (details_and_not_found EVM (ui Sample.polygonSelected)). reflexivity.
Defined.

(** ** Event handlers *)

Section Handlers.

Context {c : Component}.
Implicit Types (s : State c) (w : Mounted c).

Lemma select_establishes n s : selectionShown (handleNetworkSelect n s).
Proof. intros n' [= <-]. reflexivity. Qed.

Lemma change_clears value s : selectionShown (handleInputChange value s).
Proof. intros n [=]. Qed.

(** A setter of another cell leaves the selection and the search term. *)
Lemma selectionShown_same s s' :
  selectedNetwork s' = selectedNetwork s ->
  searchTerm s' = searchTerm s ->
  selectionShown s -> selectionShown s'.
Proof. unfold selectionShown. intros -> ->. auto. Qed.

Lemma fetchNetworks_selection o s :
  selectedNetwork (fetchNetworks o s) = selectedNetwork s /\
  searchTerm (fetchNetworks o s) = searchTerm s.
Proof.
  unfold fetchNetworks, tryBlock.
  destruct (awaitDocument c o) as [e|data]; [done|].
  destruct (keyOrEmpty c data); done.
Qed.

Lemma commitEffects_ui w : ui (commitEffects w) = ui w.
Proof.
  unfold commitEffects. destruct (committedDeps w) as [prev|]; [|done].
  by destruct (areHookInputsEqual fetchEffectDeps prev).
Qed.

Lemma handle_preserves e w :
  selectionShown (ui w) -> selectionShown (ui (handle e w)).
Proof.
  intros Hinv. destruct e as [value| | |i| |o]; simpl.
  - destruct (loading (ui w)); [done|]. apply change_clears.
  - destruct (loading (ui w)); [done|]. by apply (selectionShown_same (ui w)).
  - by destruct (loading (ui w)).
  - destruct (clickable (ui w) !! i); [|done]. apply select_establishes.
  - destruct (pendingTimeouts w); [done|]. by apply (selectionShown_same (ui w)).
  - destruct (pendingFetches w); [done|]. simpl.
    destruct (fetchNetworks_selection o (ui w)).
    by apply (selectionShown_same (ui w)).
Qed.

Lemma step_preserves e w :
  selectionShown (ui w) -> selectionShown (ui (step w e)).
Proof. intros H. unfold step. rewrite commitEffects_ui. by apply handle_preserves. Qed.

Lemma run_preserves events w :
  selectionShown (ui w) -> selectionShown (ui (run events w)).
Proof.
  revert w; induction events as [|e events IH]; intros w H; simpl; [done|].
  apply IH. by apply step_preserves.
Qed.

(** In particular it holds in every state a mounted component reaches. *)
Lemma mounted_selection_shown events : selectionShown (ui (run events (@mount c))).
Proof. apply run_preserves. intros n [=]. Qed.

End Handlers.

(** C8.  In each component, if the search term equals the display name of
    the selected network whenever one is selected, this still holds after
    any event; [handleNetworkSelect] selects the network and sets the
    search term to its display name, [handleInputChange] clears the
    selection, and [handleInputFocus], [handleInputBlur] and the timer
    callback of the latter leave the selection and the search term as they
    are. *)
Theorem handlers_keep_selection_shown (c : Component) (w : Mounted c) :
  selectionShown (ui w) ->
  (forall e, selectionShown (ui (step w e))) /\
  (forall n, selectedNetwork (handleNetworkSelect n (ui w)) = Some n /\
             searchTerm (handleNetworkSelect n (ui w)) = displayName c n /\
             selectionShown (handleNetworkSelect n (ui w))) /\
  (forall value, selectedNetwork (handleInputChange value (ui w)) = None /\
                 selectionShown (handleInputChange value (ui w))) /\
  (selectedNetwork (handleInputFocus (ui w)) = selectedNetwork (ui w) /\
   searchTerm (handleInputFocus (ui w)) = searchTerm (ui w)) /\
  ui (handleInputBlur w) = ui w /\
  (selectedNetwork (closeDropdown (ui w)) = selectedNetwork (ui w) /\
   searchTerm (closeDropdown (ui w)) = searchTerm (ui w)).
Proof.
  intros Hinv. split; [intros e; by apply step_preserves|].
  split; [intros n; split; [done|split; [done|apply select_establishes]]|].
  split; [intros value; split; [done|apply change_clears]|].
  done.
Qed.

Lemma handlers_keep_selection_shown_witness :
  selectionShown (ui Sample.polygonSelected) /\
  (forall e, selectionShown (ui (step Sample.polygonSelected e))) /\
  selectedNetwork (ui (step Sample.polygonSelected (Change "eth"))) = None.
Proof.
  assert (H : selectionShown (ui Sample.polygonSelected)).
  { intros n [= <-]. reflexivity. }
  split; [exact H|].
  split; [|reflexivity].
  exact (proj1 (handlers_keep_selection_shown EVM Sample.polygonSelected H)).
Defined.

(** ** Loading the document *)

(** C9.  If the fetch or the JSON parsing fails, or the parsed document
    lacks the component's key ([archives] for EVM and Solana, [networks]
    for Substrate), [fetchNetworks] leaves the component with an empty
    network list and [loading] false; whatever the outcome, [loading] is
    false after [fetchNetworks]. *)
Theorem fetchNetworks_failure
    (c : Component) (o : FetchOutcome c) (s : State c) :
  failedOrKeyless o ->
  networks (fetchNetworks o s) = [] /\
  loading (fetchNetworks o s) = false /\
  forall o' : FetchOutcome c, loading (fetchNetworks o' s) = false.
Proof.
  intros Hfail. split; [|done].
  destruct o as [| |[| |fields]]; try reflexivity.
  simpl in Hfail. unfold fetchNetworks, tryBlock. simpl. by rewrite Hfail.
Qed.

Lemma fetchNetworks_failure_witness :
  failedOrKeyless Sample.keylessDocument /\
  networks (fetchNetworks Sample.keylessDocument initialState) = [] /\
  loading (fetchNetworks Sample.keylessDocument initialState) = false /\
  forall o' : FetchOutcome EVM, loading (fetchNetworks o' initialState) = false.
Proof.
  assert (H : failedOrKeyless Sample.keylessDocument) by reflexivity.
  split; [exact H|].
  exact (fetchNetworks_failure EVM Sample.keylessDocument initialState H).
Defined.

(** ** The fetch effect *)

Section Effect.

Context {c : Component}.
Implicit Types (w : Mounted c).

Lemma handle_effect_frame e w :
  committedDeps (handle e w) = committedDeps w /\
  fetchLog (handle e w) = fetchLog w.
Proof.
  destruct e as [value| | |i| |o]; simpl;
    repeat match goal with
           | |- context [if ?b then _ else _] => destruct b
           | |- context [match ?x with _ => _ end] => destruct x
           end; done.
Qed.

(** Once the effect has run, no event makes it run again. *)
Lemma step_no_fetch e w :
  committedDeps w = Some fetchEffectDeps ->
  committedDeps (step w e) = Some fetchEffectDeps /\
  fetchLog (step w e) = fetchLog w.
Proof.
  intros Hdeps. destruct (handle_effect_frame e w) as [Hd Hl].
  unfold step, commitEffects. rewrite Hd, Hdeps. simpl. by rewrite Hd, Hl.
Qed.

Lemma run_no_fetch events w :
  committedDeps w = Some fetchEffectDeps ->
  committedDeps (run events w) = Some fetchEffectDeps /\
  fetchLog (run events w) = fetchLog w.
Proof.
  revert w; induction events as [|e events IH]; intros w Hdeps; simpl; [done|].
  destruct (step_no_fetch e w Hdeps) as [Hd Hl].
  destruct (IH _ Hd) as [Hd' Hl']. by rewrite Hl', Hl.
Qed.

End Effect.

(** C7.  Over the lifetime of a mount, whatever events follow (typing,
    focus, blur, selection, timers, the settling of the fetch), the
    component has issued exactly one fetch, of its own document; no event
    adds a fetch. *)
Theorem one_fetch_per_mount (c : Component) (events : list (Event c)) :
  fetchLog (run events mount) = [documentUrl c] /\
  forall e, fetchLog (step (run events mount) e) = fetchLog (run events mount).
Proof.
  destruct (run_no_fetch events (@mount c) eq_refl) as [Hd Hl].
  split; [by rewrite Hl|].
  intros e. by destruct (step_no_fetch e _ Hd).
Qed.

(** ** What the computations write to *)

Section StoreFacts.

Context {c : Component}.
Implicit Types (h : Store.Heap c) (l : Store.loc).

Lemma fresh_unused h : h !! fresh (dom h) = None.
Proof. apply not_elem_of_dom, is_fresh. Qed.

Lemma unchanged_refl h : Store.unchanged h h.
Proof. by intros l o. Qed.

(** A write to a location that [h] does not use cannot be seen from [h]. *)
Lemma unchanged_write h h' l o :
  Store.unchanged h h' -> h !! l = None -> Store.unchanged h (<[l := o]> h').
Proof.
  intros Hun Hl l' o' Hl'. rewrite lookup_insert_ne; [by apply Hun|].
  intros ->. congruence.
Qed.

Lemma unchanged_unused h h' l :
  Store.unchanged h h' -> h' !! l = None -> h !! l = None.
Proof.
  intros Hun Hl. destruct (h !! l) eqn:E; [|done].
  apply Hun in E. congruence.
Qed.

Lemma unchanged_alloc h o : Store.unchanged h (<[fresh (dom h) := o]> h).
Proof. apply unchanged_write; [apply unchanged_refl | apply fresh_unused]. Qed.

Lemma filteredNetworks_run searchTerm networks elems h :
  h !! networks = Some (Store.NetworkArray elems) ->
  exists result h',
    Store.filteredNetworks c searchTerm networks h = Some (result, h') /\
    Store.unchanged h h' /\
    h' !! result = Some (Store.NetworkArray (filteredNetworks c searchTerm elems)).
Proof.
  intros Hnet. unfold Store.filteredNetworks, filteredNetworks.
  destruct (negb (JS.truthy searchTerm)).
  - exists networks, h. auto using unchanged_refl.
  - unfold Store.bind, Store.arrayFilter, Store.arraySlice, Store.alloc.
    rewrite Hnet. simpl. rewrite lookup_insert_eq. simpl.
    eexists _, _. split; [reflexivity|]. split.
    + apply unchanged_write; [apply unchanged_alloc|].
      eapply unchanged_unused; [apply unchanged_alloc | apply fresh_unused].
    + by rewrite lookup_insert_eq.
Qed.

(** The loops of [getAvailableData] write to the set only. *)
Section Loops.

Context {Item Provider : Type}.
Variable name : Item -> string.
Variable data : Provider -> list Item.
Variable add : list string -> Item -> list string.
Hypothesis add_setAdd : forall acc item, add acc item = JS.setAdd (name item) acc.
Variable body : Store.loc -> Item -> Store.M c unit.
Hypothesis body_setAdd :
  forall allData item, body allData item = Store.setAdd allData (name item).

Lemma forEach_items allData items acc h :
  h !! allData = Some (Store.StringSet acc) ->
  Store.forEach items (body allData) h
    = Some (tt, <[allData := Store.StringSet (fold_left add items acc)]> h).
Proof.
  revert acc h; induction items as [|i items IH]; intros acc h Hset; simpl.
  - unfold Store.ret. by rewrite insert_id.
  - unfold Store.bind. rewrite body_setAdd. unfold Store.setAdd at 1.
    rewrite Hset.
    rewrite (IH (JS.setAdd (name i) acc)) by apply lookup_insert_eq.
    by rewrite insert_insert_eq, add_setAdd.
Qed.

Lemma forEach_providers allData ps acc h :
  h !! allData = Some (Store.StringSet acc) ->
  Store.forEach ps (fun p => Store.forEach (data p) (body allData)) h
    = Some (tt, <[allData :=
                    Store.StringSet
                      (fold_left (fun acc p => fold_left add (data p) acc) ps acc)]> h).
Proof.
  revert acc h; induction ps as [|p ps IH]; intros acc h Hset; simpl.
  - unfold Store.ret. by rewrite insert_id.
  - unfold Store.bind. rewrite (forEach_items _ _ acc) by done.
    rewrite (IH (fold_left add (data p) acc)) by apply lookup_insert_eq.
    by rewrite insert_insert_eq.
Qed.

(** [new Set], the loops, [Array.from] and the in-place [sort]. *)
Lemma collect_and_sort_run ps h :
  exists result h',
    Store.bind Store.newSet (fun allData =>
      Store.bind
        (Store.forEach ps (fun p => Store.forEach (data p) (body allData)))
        (fun _ =>
           Store.bind (Store.arrayFrom allData) (fun fromSet =>
             Store.arraySort fromSet))) h
    = Some (result, h') /\
    Store.unchanged h h' /\
    h' !! result
      = Some (Store.StringArray
                (JS.sortStrings
                   (fold_left (fun acc p => fold_left add (data p) acc) ps []))).
Proof.
  unfold Store.bind at 1. unfold Store.newSet, Store.alloc. simpl.
  unfold Store.bind at 1.
  rewrite (forEach_providers _ _ []) by apply lookup_insert_eq.
  rewrite insert_insert_eq.
  unfold Store.bind, Store.arrayFrom, Store.alloc.
  rewrite lookup_insert_eq. simpl.
  unfold Store.arraySort. rewrite lookup_insert_eq.
  eexists _, _. split; [reflexivity|]. split.
  - rewrite insert_insert_eq.
    apply unchanged_write; [apply unchanged_alloc|].
    eapply unchanged_unused; [apply unchanged_alloc | apply fresh_unused].
  - by rewrite lookup_insert_eq.
Qed.

End Loops.

End StoreFacts.

Lemma getAvailableDataEvm_run (network : Evm.NetworkData) (h : Store.Heap EVM) :
  exists result h',
    Store.getAvailableDataEvm network h = Some (result, h') /\
    Store.unchanged h h' /\
    h' !! result = Some (Store.StringArray (Evm.getAvailableData network)).
Proof.
  apply (collect_and_sort_run Evm.itemName Evm.data _ evm_add_setAdd
           (fun allData item =>
              match item with
              | Evm.ItemString s => Store.setAdd allData s
              | Evm.ItemObject name _ => Store.setAdd allData name
              end)).
  by intros allData [s|name ranges].
Qed.

Lemma getAvailableDataSolana_run (network : Solana.NetworkData) (h : Store.Heap SOLANA) :
  exists result h',
    Store.getAvailableDataSolana network h = Some (result, h') /\
    Store.unchanged h h' /\
    h' !! result = Some (Store.StringArray (Solana.getAvailableData network)).
Proof.
  apply (collect_and_sort_run Solana.name Solana.data _ (fun _ _ => eq_refl)
           (fun allData item => Store.setAdd allData (Solana.name item))).
  done.
Qed.

(** C6.  Computing the filtered list leaves the array of the [networks]
    cell, and every other object of the store, as it was, and yields the
    filtered list; the same holds for [getAvailableData] of the EVM and
    Solana components, whose set and sorted array are new objects. *)
Theorem computations_leave_networks_unchanged
    (c : Component) (searchTerm : string)
    (h : Store.Heap c) (networks : Store.loc) (elems : list (NetworkData c)) :
  h !! networks = Some (Store.NetworkArray elems) ->
  (exists result h',
     Store.filteredNetworks c searchTerm networks h = Some (result, h') /\
     h' !! networks = Some (Store.NetworkArray elems) /\
     Store.unchanged h h' /\
     h' !! result = Some (Store.NetworkArray (filteredNetworks c searchTerm elems))) /\
  (forall (network : Evm.NetworkData) (hE : Store.Heap EVM),
     exists result h',
       Store.getAvailableDataEvm network hE = Some (result, h') /\
       Store.unchanged hE h' /\
       h' !! result = Some (Store.StringArray (Evm.getAvailableData network))) /\
  (forall (network : Solana.NetworkData) (hS : Store.Heap SOLANA),
     exists result h',
       Store.getAvailableDataSolana network hS = Some (result, h') /\
       Store.unchanged hS h' /\
       h' !! result = Some (Store.StringArray (Solana.getAvailableData network))).
Proof.
  intros Hnet. split; [|split].
  - destruct (filteredNetworks_run searchTerm networks elems h Hnet)
      as (result & h' & Hrun & Hun & Hres).
    exists result, h'. auto.
  - apply getAvailableDataEvm_run.
  - apply getAvailableDataSolana_run.
Qed.

Lemma computations_leave_networks_unchanged_witness :
  Sample.store !! 1%positive = Some (Store.NetworkArray Sample.elevenEvm) /\
  exists result h',
    Store.filteredNetworks EVM "pol" 1%positive Sample.store = Some (result, h') /\
    h' !! 1%positive = Some (Store.NetworkArray Sample.elevenEvm) /\
    Store.unchanged Sample.store h' /\
    h' !! result
      = Some (Store.NetworkArray (filteredNetworks EVM "pol" Sample.elevenEvm)).
Proof.
  assert (H : Sample.store !! 1%positive = Some (Store.NetworkArray Sample.elevenEvm))
    by reflexivity.
  split; [exact H|].
  exact (proj1 (computations_leave_networks_unchanged EVM "pol" Sample.store
                  1%positive Sample.elevenEvm H)).
Defined.

(** * Further properties *)

(** ** What is rendered *)

Section Rendered.

Context {c : Component}.
Implicit Types (s : State c) (l : list (NetworkData c)).

Lemma filteredNetworks_In t l n : In n (filteredNetworks c t l) -> In n l.
Proof.
  unfold filteredNetworks. destruct (negb (JS.truthy t)); [done|].
  rewrite slice_from_start, <- !list_elem_of_In. intros Hin.
  eapply elem_of_sublist; [exact Hin|].
  etrans; [apply sublist_take | apply filter_sublist].
Qed.




Lemma filter_nil_iff {A} (p : A -> bool) (xs : list A) :
  List.filter p xs = [] <-> forall x, In x xs -> p x = false.
Proof.
  induction xs as [|x xs IH]; simpl; [by split|].
  destruct (p x) eqn:Hx.
  - split; [done|]. intros H. specialize (H x (or_introl eq_refl)). congruence.
  - rewrite IH. split.
    + intros H y [<- | Hy]; auto.
    + intros H y Hy. apply H. by right.
Qed.

Lemma filteredNetworks_nil_iff t l :
  t <> "" ->
  filteredNetworks c t l = [] <-> forall n, In n l -> networkFilter c t n = false.
Proof.
  intros Ht. rewrite filteredNetworks_nonempty by done.
  rewrite <- filter_nil_iff.
  destruct (List.filter (networkFilter c t) l); simpl; split; done.
Qed.

Lemma filteredNetworks_of_nil t : filteredNetworks c t [] = [].
Proof. unfold filteredNetworks. by destruct (negb (JS.truthy t)). Qed.

(** The non-loading branch of [render]. *)
Lemma render_loaded s :
  loading s = false ->
  render s =
  RenderedView
    (mkMainView c (searchTerm s)
       (if isDropdownOpen s &&
           (0 <? length (filteredNetworks c (searchTerm s) (networks s)))%nat
        then Some (filteredNetworks c (searchTerm s) (networks s)) else None)
       (match selectedNetwork s with
        | Some n => Some (detailsPanel c n)
        | None => None
        end)
       (if JS.truthy (searchTerm s) &&
           match selectedNetwork s with Some _ => false | None => true end &&
           (length (filteredNetworks c (searchTerm s) (networks s)) =? 0)%nat
        then Some (searchTerm s) else None)).
Proof. intros Hl. unfold render. by rewrite Hl. Qed.

Lemma fetchNetworks_failed_networks (o : FetchOutcome c) s :
  failedOrKeyless o -> networks (fetchNetworks o s) = [].
Proof.
  intros Hfail. destruct o as [| |[| |fields]]; try reflexivity.
  simpl in Hfail. unfold fetchNetworks, tryBlock. simpl. by rewrite Hfail.
Qed.

End Rendered.

(** X1.  In a rendered state the not-found message is shown exactly when
    the search term is non-empty, no network is selected and no record of
    the whole network list passes the filter: the cap of ten never hides
    the only matches. *)
Theorem not_found_iff_nothing_matches
    (c : Component) (s : State c) (v : MainView c) :
  render s = RenderedView v ->
  (is_Some (notFound v) <->
     searchTerm s <> "" /\ selectedNetwork s = None /\
     forall n, In n (networks s) -> networkFilter c (searchTerm s) n = false).
Proof.
  unfold render. destruct (loading s); [discriminate|].
  intros [= <-]. simpl.
  destruct (JS.truthy (searchTerm s)) eqn:Ht; simpl.
  - apply truthy_nonempty in Ht. rewrite <- (filteredNetworks_nil_iff _ _ Ht).
    destruct (selectedNetwork s) as [n|]; simpl.
    + split; [intros [x [=]] | intros (_ & [=] & _)].
    + destruct (filteredNetworks c (searchTerm s) (networks s)); simpl.
      * split; [done | by eexists].
      * split; [intros [x [=]] | intros (_ & _ & [=])].
  - split; [intros [x [=]] | intros (Hne & _)].
    apply truthy_nonempty in Hne. congruence.
Qed.

Lemma not_found_iff_nothing_matches_witness :
  render Sample.searchingZz = RenderedView Sample.searchingZzView /\
  (is_Some (notFound Sample.searchingZzView) <->
     searchTerm Sample.searchingZz <> "" /\
     selectedNetwork Sample.searchingZz = None /\
     forall n, In n (networks Sample.searchingZz) ->
               networkFilter EVM (searchTerm Sample.searchingZz) n = false).
Proof.
  split; [reflexivity|].
  apply (not_found_iff_nothing_matches EVM Sample.searchingZz Sample.searchingZzView).
  reflexivity.
Defined.



(** X3.  After a failed load (rejected fetch or parse, or a document
    without the key) typing any non-empty text renders the not-found
    message for that text, with no dropdown and no details panel. *)
Theorem failed_load_reports_not_found
    (c : Component) (o : FetchOutcome c) (s : State c) (value : string) :
  failedOrKeyless o ->
  value <> "" ->
  render (handleInputChange value (fetchNetworks o s))
    = RenderedView (mkMainView c value None None (Some value)).
Proof.
  intros Hfail Hvalue. rewrite render_loaded by reflexivity.
  change (networks (handleInputChange value (fetchNetworks o s)))
    with (networks (fetchNetworks o s)).
  rewrite fetchNetworks_failed_networks by done.
  change (searchTerm (handleInputChange value (fetchNetworks o s))) with value.
  rewrite filteredNetworks_of_nil. simpl.
  apply truthy_nonempty in Hvalue. by rewrite Hvalue.
Qed.

Lemma failed_load_reports_not_found_witness :
  failedOrKeyless Sample.keylessDocument /\
  "eth" <> "" /\
  render (handleInputChange "eth" (fetchNetworks Sample.keylessDocument initialState))
    = RenderedView (mkMainView EVM "eth" None None (Some "eth")).
Proof.
  assert (H : failedOrKeyless Sample.keylessDocument) by reflexivity.
  split; [exact H|]. split; [discriminate|].
  apply (failed_load_reports_not_found EVM Sample.keylessDocument initialState "eth" H).
  discriminate.
Defined.

(** X4.  Clearing the search box of a loaded component renders the whole
    network list in the dropdown, without the cap of ten (no dropdown when
    the list is empty), and neither the details panel nor the not-found
    message. *)
Theorem cleared_box_lists_all (c : Component) (s : State c) :
  loading s = false ->
  render (handleInputChange "" s)
    = RenderedView
        (mkMainView c ""
           (match networks s with [] => None | _ :: _ => Some (networks s) end)
           None None).
Proof.
  intros Hl. rewrite render_loaded by done. simpl.
  rewrite filteredNetworks_empty. by destruct (networks s).
Qed.

Lemma cleared_box_lists_all_witness :
  loading (mkState (c:=EVM) "pol" None false Sample.elevenEvm false) = false /\
  render (handleInputChange "" (mkState (c:=EVM) "pol" None false Sample.elevenEvm false))
    = RenderedView (mkMainView EVM "" (Some Sample.elevenEvm) None None).
Proof.
  split; [reflexivity|].
  apply (cleared_box_lists_all EVM
           (mkState (c:=EVM) "pol" None false Sample.elevenEvm false)).
  reflexivity.
Defined.

(** X5.  Selecting a network in a loaded component renders its details
    panel, puts its display name in the input, closes the dropdown and
    shows no not-found message, whatever was typed before. *)
Theorem select_renders_details
    (c : Component) (s : State c) (n : NetworkData c) :
  loading s = false ->
  render (handleNetworkSelect n s)
    = RenderedView
        (mkMainView c (displayName c n) None (Some (detailsPanel c n)) None).
Proof.
  intros Hl. rewrite render_loaded by done. simpl.
  by rewrite andb_false_r.
Qed.

Lemma select_renders_details_witness :
  loading Sample.searchingZz = false /\
  render (handleNetworkSelect (c:=EVM) Sample.polygon Sample.searchingZz)
    = RenderedView
        (mkMainView EVM "Polygon" None (Some (Evm.detailsPanel Sample.polygon)) None).
Proof.
  split; [reflexivity|].
  apply (select_renders_details EVM Sample.searchingZz Sample.polygon). reflexivity.
Defined.

(** ** What the filter accepts *)

Section TermFacts.

Lemma append_nil_r s : s +:+ "" = s.
Proof.
  induction s as [|a s IH]; [done|].
  change (String a (s +:+ "") = String a s). by rewrite IH.
Qed.


Lemma lowerUnit_idempotent a : JS.lowerUnit (JS.lowerUnit a) = JS.lowerUnit a.
Proof. destruct a as [[] [] [] [] [] [] [] []]; reflexivity. Qed.

Lemma toLowerCase_idempotent s :
  JS.toLowerCase (JS.toLowerCase s) = JS.toLowerCase s.
Proof.
  induction s as [|a s IH]; [done|]. simpl. by rewrite lowerUnit_idempotent, IH.
Qed.

Lemma toLowerCase_truthy s : JS.truthy (JS.toLowerCase s) = JS.truthy s.
Proof. by destruct s. Qed.

Lemma includes_refl s : JS.includes s s = true.
Proof.
  apply includes_occursIn. exists "", "". by rewrite append_nil_r.
Qed.




Lemma matches_own_name (c : Component) (n : NetworkData c) :
  networkFilter c (displayName c n) n = true.
Proof.
  destruct c; simpl.
  - unfold Evm.networkFilter. by rewrite includes_refl.
  - unfold Solana.networkFilter. by rewrite includes_refl.
  - unfold Substrate.networkFilter. by rewrite includes_refl.
Qed.

End TermFacts.

(** X6.  A record of the network list is found by its own display name:
    with that name as search term the filter accepts the record and the
    filtered list is not empty, so the not-found message cannot appear for
    the name of a listed network. *)
Theorem listed_name_is_found
    (c : Component) (n : NetworkData c) (networks : list (NetworkData c)) :
  In n networks ->
  networkFilter c (displayName c n) n = true /\
  filteredNetworks c (displayName c n) networks <> [].
Proof.
  intros Hin. split; [apply matches_own_name|].
  destruct (decide (displayName c n = "")) as [Hempty | Hne].
  - rewrite Hempty, filteredNetworks_empty. intros ->. destruct Hin.
  - rewrite (filteredNetworks_nil_iff _ _ Hne). intros Hnone.
    specialize (Hnone n Hin). rewrite matches_own_name in Hnone. discriminate.
Qed.

Lemma listed_name_is_found_witness :
  In Sample.moonbeam [Sample.moonbeam] /\
  networkFilter SUBSTRATE (displayName SUBSTRATE Sample.moonbeam) Sample.moonbeam = true /\
  filteredNetworks SUBSTRATE (displayName SUBSTRATE Sample.moonbeam) [Sample.moonbeam] <> [].
Proof.
  assert (H : In Sample.moonbeam [Sample.moonbeam]) by (left; reflexivity).
  split; [exact H|].
  exact (listed_name_is_found SUBSTRATE Sample.moonbeam [Sample.moonbeam] H).
Defined.



(** X8.  The Solana search ignores the letter case of the search term: two
    terms with the same lowercase form, in particular a term and its
    lowercase form, give the same filtered list. *)
Theorem solana_search_ignores_case
    (searchTerm searchTerm' : string) (networks : list (NetworkData SOLANA)) :
  JS.toLowerCase searchTerm = JS.toLowerCase searchTerm' ->
  filteredNetworks SOLANA searchTerm networks
    = filteredNetworks SOLANA searchTerm' networks /\
  filteredNetworks SOLANA (JS.toLowerCase searchTerm) networks
    = filteredNetworks SOLANA searchTerm networks.
Proof.
  assert (Hgen : forall t t', JS.toLowerCase t = JS.toLowerCase t' ->
            filteredNetworks SOLANA t networks = filteredNetworks SOLANA t' networks).
  { intros t t' Heq. unfold filteredNetworks.
    rewrite <- (toLowerCase_truthy t), <- (toLowerCase_truthy t'), Heq.
    destruct (negb (JS.truthy (JS.toLowerCase t'))); [done|].
    f_equal. apply filter_ext. intros n. simpl.
    unfold Solana.networkFilter. by rewrite Heq. }
  intros Heq. split; [by apply Hgen|].
  apply Hgen. apply toLowerCase_idempotent.
Qed.

Lemma solana_search_ignores_case_witness :
  JS.toLowerCase "SOL" = JS.toLowerCase "sOl" /\
  filteredNetworks SOLANA "SOL" Sample.elevenSolana
    = filteredNetworks SOLANA "sOl" Sample.elevenSolana /\
  filteredNetworks SOLANA (JS.toLowerCase "SOL") Sample.elevenSolana
    = filteredNetworks SOLANA "SOL" Sample.elevenSolana.
Proof.
  split; [reflexivity|].
  apply (solana_search_ignores_case "SOL" "sOl" Sample.elevenSolana). reflexivity.
Defined.

(** ** The life of a mounted component *)

Section Mounted.

Context {c : Component}.
Implicit Types (w : Mounted c) (e : Event c) (s : State c).

Lemma clickable_In s n : In n (clickable s) -> In n (networks s).
Proof.
  unfold clickable, render. destruct (loading s); [done|]. simpl.
  destruct (isDropdownOpen s &&
            (0 <? length (filteredNetworks c (searchTerm s) (networks s)))%nat);
    [|done].
  apply filteredNetworks_In.
Qed.

Lemma clickable_loading s : loading s = true -> clickable s = [].
Proof. intros Hl. unfold clickable, render. by rewrite Hl. Qed.

Lemma commitEffects_done w :
  committedDeps w = Some fetchEffectDeps -> commitEffects w = w.
Proof. intros Hd. unfold commitEffects. by rewrite Hd. Qed.

(** While the fetch is pending nothing but its settling has an effect. *)
Lemma step_while_loading e :
  settles e = false -> step (@mount c) e = mount.
Proof. by destruct e. Qed.

Lemma run_while_loading events :
  Forall (fun e => settles e = false) events -> run events (@mount c) = mount.
Proof.
  induction 1 as [|e events He Hall IH]; simpl; [done|].
  by rewrite step_while_loading.
Qed.

Lemma settle_loads (o : FetchOutcome c) :
  loadedWith (networks (fetchNetworks o initialState)) (step mount (FetchSettles o)).
Proof. done. Qed.

Lemma step_loadedWith l e w : loadedWith l w -> loadedWith l (step w e).
Proof.
  intros (Hd & Hp & Hl & Hn). unfold step.
  assert (Hh : loadedWith l (handle e w)).
  { destruct e as [value| | |i| |o]; simpl; rewrite ?Hl, ?Hp; try done.
    - destruct (clickable (ui w) !! i); done.
    - destruct (pendingTimeouts w); done. }
  destruct Hh as (Hd' & ?). by rewrite commitEffects_done.
Qed.

Lemma run_loadedWith l events w : loadedWith l w -> loadedWith l (run events w).
Proof.
  revert w; induction events as [|e events IH]; intros w Hw; simpl; [done|].
  by apply IH, step_loadedWith.
Qed.

Lemma mount_consistent : consistent (@mount c).
Proof. repeat split; simpl; auto; discriminate. Qed.

Lemma step_consistent e w : consistent w -> consistent (step w e).
Proof.
  intros Hw. pose proof Hw as (Hd & Hle & Hpend & Hload & Hsel). unfold step.
  assert (Hh : consistent (handle e w)).
  { destruct e as [value| | |i| |o]; simpl.
    - destruct (loading (ui w)) eqn:Hl; [done|].
      repeat split; simpl; auto; [|discriminate].
      intros Hp. apply Hpend in Hp. discriminate.
    - destruct (loading (ui w)) eqn:Hl; [done|].
      repeat split; simpl; auto.
      all: intros Hp; try apply Hpend in Hp; congruence.
    - by destruct (loading (ui w)).
    - destruct (clickable (ui w) !! i) as [n|] eqn:Hi; [|done].
      assert (Hin : In n (clickable (ui w))).
      { apply list_elem_of_In. by eapply list_elem_of_lookup_2. }
      assert (Hl : loading (ui w) = false).
      { destruct (loading (ui w)) eqn:Hl; [|done].
        rewrite clickable_loading in Hin by done. destruct Hin. }
      repeat split; simpl; auto.
      all: try (intros Hp; try apply Hpend in Hp; congruence).
      intros n' [= <-]. by apply clickable_In.
    - destruct (pendingTimeouts w); [done|].
      repeat split; simpl; auto.
    - destruct (pendingFetches w) as [|k] eqn:Hk; [done|].
      assert (k = 0) as -> by lia.
      specialize (Hload (Hpend eq_refl)).
      destruct (fetchNetworks_selection o (ui w)) as [Hs _].
      unfold consistent. cbn [ui pendingFetches committedDeps].
      rewrite Hs, Hload.
      repeat split; auto; discriminate. }
  destruct Hh as (Hd' & ?). by rewrite commitEffects_done.
Qed.

Lemma run_consistent events w : consistent w -> consistent (run events w).
Proof.
  revert w; induction events as [|e events IH]; intros w Hw; simpl; [done|].
  by apply IH, step_consistent.
Qed.

Lemma commitEffects_timeouts w :
  pendingTimeouts (commitEffects w) = pendingTimeouts w.
Proof.
  unfold commitEffects. destruct (committedDeps w) as [prev|]; [|done].
  by destruct (areHookInputsEqual fetchEffectDeps prev).
Qed.

(** Only a firing timer takes a timer away. *)
Lemma handle_timeouts e w :
  e <> TimeoutFires -> pendingTimeouts w <= pendingTimeouts (handle e w).
Proof.
  intros He. destruct e as [value| | |i| |o]; simpl; try done.
  - by destruct (loading (ui w)).
  - by destruct (loading (ui w)).
  - destruct (loading (ui w)); simpl; lia.
  - by destruct (clickable (ui w) !! i).
  - by destruct (pendingFetches w).
Qed.

(** A firing timer leaves the dropdown closed: it closes it, or there is
    no timer and the dropdown stays closed. *)
Lemma fire_closes w :
  isDropdownOpen (ui w) = false \/ pendingTimeouts w <> 0 ->
  isDropdownOpen (ui (step w TimeoutFires)) = false.
Proof.
  intros H. unfold step. rewrite commitEffects_ui. simpl.
  destruct (pendingTimeouts w); [|done]. by destruct H.
Qed.

End Mounted.

(** X9.  Until the fetch settles the mounted component stays as it was
    mounted: it renders the loading view, and typing, focus, blur, clicks
    and timers change nothing. *)
Theorem loading_until_fetch_settles (c : Component) (events : list (Event c)) :
  Forall (fun e => settles e = false) events ->
  run events mount = mount /\
  render (ui (run events (@mount c))) = LoadingView.
Proof.
  intros Hall. rewrite run_while_loading by done. done.
Qed.

Lemma loading_until_fetch_settles_witness :
  Forall (fun e => settles e = false) [Change (c:=EVM) "pol"; Focus; Select 0; Blur; TimeoutFires] /\
  run [Change (c:=EVM) "pol"; Focus; Select 0; Blur; TimeoutFires] mount = mount /\
  render (ui (run [Change "pol"; Focus; Select 0; Blur; TimeoutFires] (@mount EVM)))
    = LoadingView.
Proof.
  assert (H : Forall (fun e => settles e = false)
                [Change (c:=EVM) "pol"; Focus; Select 0; Blur; TimeoutFires])
    by (repeat constructor).
  split; [exact H|].
  exact (loading_until_fetch_settles EVM _ H).
Defined.

(** X10.  The network list is loaded once: after the first settling of the
    fetch, whatever events come before and after it (a second settling
    included), the component is not loading and its network list is the
    one that settling produced. *)
Theorem network_list_loaded_once
    (c : Component) (before after : list (Event c)) (o : FetchOutcome c) :
  Forall (fun e => settles e = false) before ->
  loading (ui (run (before ++ FetchSettles o :: after) mount)) = false /\
  networks (ui (run (before ++ FetchSettles o :: after) mount))
    = networks (fetchNetworks o initialState).
Proof.
  intros Hbefore. unfold run. rewrite fold_left_app. simpl.
  fold (run before (@mount c)). rewrite run_while_loading by done.
  destruct (run_loadedWith _ after _ (settle_loads o)) as (_ & _ & Hl & Hn).
  done.
Qed.

Lemma network_list_loaded_once_witness :
  Forall (fun e => settles e = false) [Change (c:=EVM) "pol"] /\
  loading (ui (run ([Change "pol"] ++ FetchSettles SampleRuns.polygonDocument
                      :: [FetchSettles Sample.keylessDocument]) mount)) = false /\
  networks (ui (run ([Change "pol"] ++ FetchSettles SampleRuns.polygonDocument
                       :: [FetchSettles Sample.keylessDocument]) mount))
    = networks (fetchNetworks SampleRuns.polygonDocument initialState).
Proof.
  assert (H : Forall (fun e => settles e = false) [Change (c:=EVM) "pol"])
    by (repeat constructor).
  split; [exact H|].
  exact (network_list_loaded_once EVM [Change "pol"]
           [FetchSettles Sample.keylessDocument] SampleRuns.polygonDocument H).
Defined.

(** X11.  In every state a mounted component reaches, the selected network
    (the one the details panel shows) is a record of the loaded network
    list, and none is selected while the component is loading. *)
Theorem selected_network_is_listed
    (c : Component) (events : list (Event c)) (n : NetworkData c) :
  selectedNetwork (ui (run events mount)) = Some n ->
  In n (networks (ui (run events mount))) /\
  loading (ui (run events mount)) = false.
Proof.
  intros Hsel.
  destruct (run_consistent events _ (@mount_consistent c))
    as (_ & _ & _ & Hload & Hin).
  split; [by apply Hin|].
  destruct (loading (ui (run events mount))); [|done].
  rewrite Hload in Hsel by done. discriminate.
Qed.

Lemma selected_network_is_listed_witness :
  selectedNetwork (ui (run SampleRuns.loadAndSelect mount)) = Some Sample.polygon /\
  In Sample.polygon (networks (ui (run SampleRuns.loadAndSelect mount))) /\
  loading (ui (run SampleRuns.loadAndSelect mount)) = false.
Proof.
  assert (H : selectedNetwork (ui (run SampleRuns.loadAndSelect mount))
              = Some Sample.polygon) by reflexivity.
  split; [exact H|].
  exact (selected_network_is_listed EVM SampleRuns.loadAndSelect Sample.polygon H).
Defined.

(** X12.  A blur leaves the dropdown as it is until the timer fires, so a
    click on an entry right after the blur selects the same network as
    without the blur. *)
Theorem click_after_blur_selects (c : Component) (w : Mounted c) (i : nat) :
  clickable (ui (step w Blur)) = clickable (ui w) /\
  ui (step (step w Blur) (Select i)) = ui (step w (Select i)).
Proof.
  assert (Hui : ui (step w Blur) = ui w).
  { unfold step. rewrite commitEffects_ui. simpl. by destruct (loading (ui w)). }
  split; [by rewrite Hui|].
  unfold step at 1 3. rewrite !commitEffects_ui. simpl. rewrite Hui.
  destruct (clickable (ui w) !! i); [|exact Hui].
  unfold withUi. cbn [ui]. by rewrite Hui.
Qed.

(** X13.  The timer started by a blur closes the dropdown when it fires,
    also when the input was focused or typed in again in between: the
    timer is never cancelled. *)
Theorem blur_timer_closes_dropdown (c : Component) (w : Mounted c) (e : Event c) :
  loading (ui w) = false ->
  isDropdownOpen (ui (run [Blur; TimeoutFires] w)) = false /\
  isDropdownOpen (ui (run [Blur; e; TimeoutFires] w)) = false.
Proof.
  intros Hl.
  assert (Hblur : pendingTimeouts (step w Blur) = S (pendingTimeouts w)).
  { unfold step. rewrite commitEffects_timeouts. simpl. by rewrite Hl. }
  split; simpl.
  - apply fire_closes. right. lia.
  - apply fire_closes.
    assert (Hcases : e = TimeoutFires \/ e <> TimeoutFires)
      by (destruct e; auto; right; discriminate).
    destruct Hcases as [-> | Hne].
    + left. apply fire_closes. right. lia.
    + right. unfold step at 1. rewrite commitEffects_timeouts.
      pose proof (handle_timeouts e (step w Blur) Hne). lia.
Qed.

Lemma blur_timer_closes_dropdown_witness :
  loading (ui Sample.polygonSelected) = false /\
  isDropdownOpen (ui (run [Blur; TimeoutFires] Sample.polygonSelected)) = false /\
  isDropdownOpen (ui (run [Blur; Focus; TimeoutFires] Sample.polygonSelected)) = false.
Proof.
  split; [reflexivity|].
  apply (blur_timer_closes_dropdown EVM Sample.polygonSelected Focus). reflexivity.
Defined.

(** ** Available data, as a function of what the providers list *)

Section ListedNames.

Lemma sortStrings_same_elements l l' :
  NoDup l -> NoDup l' -> (forall x, In x l <-> In x l') ->
  JS.sortStrings l = JS.sortStrings l'.
Proof.
  intros Hl Hl' Hsame. apply sortStrings_unique.
  - unfold JS.sortStrings. rewrite merge_sort_Permutation.
    apply NoDup_Permutation; [done..|].
    intros x. rewrite !list_elem_of_In. apply Hsame.
  - apply Sorted_merge_sort; apply _.
Qed.

Lemma listed_In {Item Provider : Type}
    (name : Item -> string) (data : Provider -> list Item) ps x :
  In x (concat (map (fun p => map name (data p)) ps)) <->
  exists p item, In p ps /\ In item (data p) /\ name item = x.
Proof.
  rewrite in_concat. split.
  - intros (names & Hnames & Hx). apply in_map_iff in Hnames as (p & <- & Hp).
    apply in_map_iff in Hx as (item & <- & Hitem). eauto.
  - intros (p & item & Hp & Hitem & <-).
    exists (map name (data p)). split; apply in_map_iff; eauto.
Qed.

Lemma evm_collect_In e x : In x (Evm.collect e) <-> In x (evmListedNames e).
Proof.
  unfold evmListedNames. rewrite listed_In.
  etrans; [apply (providers_In Evm.itemName Evm.data _ evm_add_setAdd)|].
  simpl. tauto.
Qed.

Lemma solana_collect_In s x : In x (Solana.collect s) <-> In x (solanaListedNames s).
Proof.
  unfold solanaListedNames. rewrite listed_In.
  etrans; [apply (providers_In Solana.name Solana.data _ (fun _ _ => eq_refl))|].
  simpl. tauto.
Qed.

Lemma evm_collect_NoDup e : NoDup (Evm.collect e).
Proof. apply (providers_NoDup Evm.itemName Evm.data _ evm_add_setAdd). constructor. Qed.

Lemma solana_collect_NoDup s : NoDup (Solana.collect s).
Proof.
  apply (providers_NoDup Solana.name Solana.data _ (fun _ _ => eq_refl)). constructor.
Qed.

(** A duplicate-free list whose elements all occur in [names]. *)
Lemma distinct_names_bound (l names : list string) :
  NoDup l -> (forall x, In x l <-> In x names) ->
  length l <= length names /\ (l = [] <-> names = []).
Proof.
  intros Hnd Hsame. split.
  - apply NoDup_incl_length; [by apply NoDup_ListNoDup|].
    intros x Hx. by apply Hsame.
  - split; intros ->.
    + destruct names as [|x names]; [done|].
      destruct (proj2 (Hsame x) (or_introl eq_refl)).
    + destruct l as [|x l]; [done|].
      destruct (proj1 (Hsame x) (or_introl eq_refl)).
Qed.

End ListedNames.

(** X14.  [getAvailableData] depends only on which names the providers
    list: two EVM networks, and two Solana networks, whose providers list
    the same names return the same array, whatever the order and the
    repetitions of providers and items. *)
Theorem getAvailableData_order_independent
    (e e' : Evm.NetworkData) (s s' : Solana.NetworkData) :
  (forall x, In x (evmListedNames e) <-> In x (evmListedNames e')) ->
  (forall x, In x (solanaListedNames s) <-> In x (solanaListedNames s')) ->
  Evm.getAvailableData e = Evm.getAvailableData e' /\
  Solana.getAvailableData s = Solana.getAvailableData s'.
Proof.
  intros He Hs. split.
  - apply sortStrings_same_elements; auto using evm_collect_NoDup.
    intros x. by rewrite !evm_collect_In.
  - apply sortStrings_same_elements; auto using solana_collect_NoDup.
    intros x. by rewrite !solana_collect_In.
Qed.

Lemma getAvailableData_order_independent_witness :
  (forall x, In x (evmListedNames Sample.polygon)
             <-> In x (evmListedNames SampleRuns.polygonReordered)) /\
  (forall x, In x (solanaListedNames Sample.solanaMainnet)
             <-> In x (solanaListedNames Sample.solanaMainnet)) /\
  Evm.getAvailableData Sample.polygon
    = Evm.getAvailableData SampleRuns.polygonReordered /\
  Solana.getAvailableData Sample.solanaMainnet
    = Solana.getAvailableData Sample.solanaMainnet.
Proof.
  assert (He : forall x, In x (evmListedNames Sample.polygon)
                         <-> In x (evmListedNames SampleRuns.polygonReordered)).
  { intros x. simpl. tauto. }
  assert (Hs : forall x, In x (solanaListedNames Sample.solanaMainnet)
                         <-> In x (solanaListedNames Sample.solanaMainnet))
    by (intros x; reflexivity).
  split; [exact He|]. split; [exact Hs|].
  exact (getAvailableData_order_independent Sample.polygon SampleRuns.polygonReordered
           Sample.solanaMainnet Sample.solanaMainnet He Hs).
Defined.

(** X15.  [getAvailableData] returns at most as many names as the
    providers list items, and the empty array exactly when no provider
    lists any item (no providers, or providers with empty data). *)
Theorem getAvailableData_size (e : Evm.NetworkData) (s : Solana.NetworkData) :
  (length (Evm.getAvailableData e) <= length (evmListedNames e) /\
   (Evm.getAvailableData e = [] <-> evmListedNames e = [])) /\
  (length (Solana.getAvailableData s) <= length (solanaListedNames s) /\
   (Solana.getAvailableData s = [] <-> solanaListedNames s = [])).
Proof.
  split; apply distinct_names_bound.
  - apply sortStrings_NoDup, evm_collect_NoDup.
  - intros x. unfold Evm.getAvailableData. by rewrite sortStrings_In, evm_collect_In.
  - apply sortStrings_NoDup, solana_collect_NoDup.
  - intros x. unfold Solana.getAvailableData.
    by rewrite sortStrings_In, solana_collect_In.
Qed.

(** ** Sharing of the network array *)

(** X16.  With the empty search term [filteredNetworks] returns the array
    of the [networks] cell itself and allocates nothing; with a non-empty
    term its result is an array at a location that was not in use, hence
    another object than the [networks] array. *)
Theorem filtered_list_sharing
    (c : Component) (searchTerm : string)
    (h : Store.Heap c) (networks : Store.loc) (elems : list (NetworkData c)) :
  h !! networks = Some (Store.NetworkArray elems) ->
  Store.filteredNetworks c "" networks h = Some (networks, h) /\
  (searchTerm <> "" ->
   exists result h',
     Store.filteredNetworks c searchTerm networks h = Some (result, h') /\
     h !! result = None /\
     result <> networks /\
     h' !! result = Some (Store.NetworkArray (filteredNetworks c searchTerm elems))).
Proof.
  intros Hnet. split; [reflexivity|].
  intros Hterm. apply truthy_nonempty in Hterm.
  unfold Store.filteredNetworks, filteredNetworks. rewrite Hterm. simpl.
  unfold Store.bind, Store.arrayFilter, Store.arraySlice, Store.alloc.
  rewrite Hnet. simpl. rewrite lookup_insert_eq. simpl.
  eexists _, _. split; [reflexivity|].
  assert (Hfresh : h !! fresh (dom (<[fresh (dom h) :=
              Store.NetworkArray (List.filter (networkFilter c searchTerm) elems)]> h))
            = None).
  { eapply unchanged_unused; [apply unchanged_alloc | apply fresh_unused]. }
  split; [exact Hfresh|]. split.
  - intros Heq. rewrite Heq in Hfresh. congruence.
  - by rewrite lookup_insert_eq.
Qed.

Lemma filtered_list_sharing_witness :
  Sample.store !! 1%positive = Some (Store.NetworkArray Sample.elevenEvm) /\
  Store.filteredNetworks EVM "" 1%positive Sample.store
    = Some (1%positive, Sample.store) /\
  ("pol" <> "" ->
   exists result h',
     Store.filteredNetworks EVM "pol" 1%positive Sample.store = Some (result, h') /\
     Sample.store !! result = None /\
     result <> 1%positive /\
     h' !! result
       = Some (Store.NetworkArray (filteredNetworks EVM "pol" Sample.elevenEvm))).
Proof.
  assert (H : Sample.store !! 1%positive = Some (Store.NetworkArray Sample.elevenEvm))
    by reflexivity.
  split; [exact H|].
  exact (filtered_list_sharing EVM "pol" Sample.store 1%positive Sample.elevenEvm H).
Defined.

(** ** A successful load *)

(** X17.  When the parsed document holds an array under the component's
    key, [fetchNetworks] makes that array the network list and ends the
    loading; for every outcome it leaves the search term, the selection
    and the dropdown flag as they were. *)
Theorem fetchNetworks_success
    (c : Component) (fields : gmap string (PropertyValue c))
    (l : list (NetworkData c)) (s : State c) :
  fields !! documentKey c = Some (RecordsValue l) ->
  fetchNetworks (JsonResolved (DocObject fields)) s
    = mkState (searchTerm s) (selectedNetwork s) (isDropdownOpen s) l false /\
  forall o : FetchOutcome c,
    searchTerm (fetchNetworks o s) = searchTerm s /\
    selectedNetwork (fetchNetworks o s) = selectedNetwork s /\
    isDropdownOpen (fetchNetworks o s) = isDropdownOpen s.
Proof.
  intros Hkey. split.
  - unfold fetchNetworks, tryBlock. simpl. by rewrite Hkey.
  - intros o. unfold fetchNetworks, tryBlock.
    destruct (awaitDocument c o) as [e|data]; [done|].
    destruct (keyOrEmpty c data); done.
Qed.

Lemma fetchNetworks_success_witness :
  SampleRuns.polygonFields !! documentKey EVM
    = Some (RecordsValue (c:=EVM) [Sample.polygon]) /\
  fetchNetworks SampleRuns.polygonDocument initialState
    = mkState (c:=EVM) "" None false [Sample.polygon] false.
Proof.
  assert (H : SampleRuns.polygonFields !! documentKey EVM
              = Some (RecordsValue (c:=EVM) [Sample.polygon])) by reflexivity.
  split; [exact H|].
  exact (proj1 (fetchNetworks_success EVM SampleRuns.polygonFields
                  [Sample.polygon] initialState H)).
Defined.

(** ** The sorted array is a new object *)

Section FreshResult.

Context {c : Component} {Item Provider : Type}.
Variable name : Item -> string.
Variable data : Provider -> list Item.
Variable add : list string -> Item -> list string.
Hypothesis add_setAdd : forall acc item, add acc item = JS.setAdd (name item) acc.
Variable body : Store.loc -> Item -> Store.M c unit.
Hypothesis body_setAdd :
  forall allData item, body allData item = Store.setAdd allData (name item).

Lemma collect_and_sort_fresh ps (h : Store.Heap c) :
  exists result h',
    Store.bind Store.newSet (fun allData =>
      Store.bind
        (Store.forEach ps (fun p => Store.forEach (data p) (body allData)))
        (fun _ =>
           Store.bind (Store.arrayFrom allData) (fun fromSet =>
             Store.arraySort fromSet))) h
    = Some (result, h') /\
    h !! result = None /\
    h' !! result
      = Some (Store.StringArray
                (JS.sortStrings
                   (fold_left (fun acc p => fold_left add (data p) acc) ps []))).
Proof.
  unfold Store.bind at 1. unfold Store.newSet, Store.alloc. simpl.
  unfold Store.bind at 1.
  rewrite (forEach_providers name data add add_setAdd body body_setAdd _ _ [])
    by apply lookup_insert_eq.
  rewrite insert_insert_eq.
  unfold Store.bind, Store.arrayFrom, Store.alloc.
  rewrite lookup_insert_eq. simpl.
  unfold Store.arraySort. rewrite lookup_insert_eq.
  eexists _, _. split; [reflexivity|]. split.
  - eapply unchanged_unused; [apply unchanged_alloc | apply fresh_unused].
  - by rewrite lookup_insert_eq.
Qed.

End FreshResult.

(** X18.  Every call of [getAvailableData] of the EVM and Solana components
    returns an array at a location that was not in use before the call: the
    array that [sort] reorders in place is never one that existed before. *)
Theorem getAvailableData_returns_new_array
    (e : Evm.NetworkData) (hE : Store.Heap EVM)
    (s : Solana.NetworkData) (hS : Store.Heap SOLANA) :
  (exists result h',
     Store.getAvailableDataEvm e hE = Some (result, h') /\
     hE !! result = None /\
     h' !! result = Some (Store.StringArray (Evm.getAvailableData e))) /\
  (exists result h',
     Store.getAvailableDataSolana s hS = Some (result, h') /\
     hS !! result = None /\
     h' !! result = Some (Store.StringArray (Solana.getAvailableData s))).
Proof.
  split.
  - apply (collect_and_sort_fresh Evm.itemName Evm.data _ evm_add_setAdd
             (fun allData item =>
                match item with
                | Evm.ItemString s => Store.setAdd allData s
                | Evm.ItemObject name _ => Store.setAdd allData name
                end)).
    by intros allData [x|name ranges].
  - apply (collect_and_sort_fresh Solana.name Solana.data _ (fun _ _ => eq_refl)
             (fun allData item => Store.setAdd allData (Solana.name item))).
    done.
Qed.

(** ** Entries of the dropdown *)


